(** * Tudat: one-way range observation model and its partials

    A shallow embedding of

    - [Tudat/Astrodynamics/ObservationModels/oneWayRangeObservationModel.h]
      (class [OneWayRangeObservationModel], at its default template
      arguments [ObservationScalarType = double], [TimeType = double]);
    - [Tudat/Astrodynamics/OrbitDetermination/ObservationPartials/oneWayRangePartial.cpp]
      (classes [OneWayRangeScaling] and [OneWayRangePartial]).

    A C++ [double] is a primitive binary64 float of Rocq and every
    arithmetic operation of the source is one correctly rounded operation on
    it (round to nearest even, no fused multiply-add), so the definitions
    below run on concrete inputs.  A call either returns, throws a
    [std::runtime_error], or has undefined behaviour (an index past the
    end of a [std::vector], a read of a variable that was never
    assigned); the three are kept apart in the type [outcome]. *)

From Stdlib Require Import ZArith Lia Bool List String Floats.
Import ListNotations.

(** ** Outcomes of a C++ call *)

(** [std::runtime_error] with its [what()] message. *)
Inductive exn : Type :=
| runtime_error (what : string).

Inductive outcome (A : Type) : Type :=
| Returns (a : A)
| Throws (e : exn)
| UndefinedBehaviour.

Arguments Returns {A} a.
Arguments Throws {A} e.
Arguments UndefinedBehaviour {A}.

Definition bind {A B : Type} (m : outcome A) (k : A -> outcome B) : outcome B :=
  match m with
  | Returns a => k a
  | Throws e => Throws e
  | UndefinedBehaviour => UndefinedBehaviour
  end.

Notation "x <- m ;; k" := (bind m (fun x => k))
  (at level 61, m at next level, right associativity).
Notation "' pat <- m ;; k" := (bind m (fun x => match x with pat => k end))
  (at level 61, pat pattern, m at next level, right associativity).

(** [v[ i ]] on a [std::vector]: undefined past the end. *)
Definition at_index {A : Type} (v : list A) (i : nat) : outcome A :=
  match nth_error v i with
  | Some a => Returns a
  | None => UndefinedBehaviour
  end.

(** ** [linkTypeDefs.h] *)

Module observation_models.

(** Modelled from the spec: the header [linkTypeDefs.h] that declares
    [enum LinkEndType] is not among the sources.  The spec gives the roles
    as transmitter, retransmitter(s), receiver, in signal-flow order; the
    intermediate roles are numbered here. *)
Inductive LinkEndType : Type :=
| transmitter
| retransmitter (n : nat)
| receiver.

(** [boost::lexical_cast< std::string >] of a [LinkEndType] prints the
    enumerator's integer value, which the absent header fixes. *)
Class LexicalCast : Type :=
  lexical_cast : LinkEndType -> string.

End observation_models.
Export observation_models.

(** ** [physicalConstants.h] *)

(** The header [physicalConstants.h] is not among the sources: the model
    takes the value of [physical_constants::SPEED_OF_LIGHT] and the value
    [physical_constants::getSpeedOfLight< double >( )] returns as given. *)
Class PhysicalConstants : Type := {
  SPEED_OF_LIGHT : float;
  getSpeedOfLight : float
}.

(** ** The part of Eigen the two files use *)

Module Eigen.

Local Open Scope float_scope.

(** [Eigen::Vector3d] (a column). *)
Record Vector3d : Type := vec3 { vx : float; vy : float; vz : float }.

(** [Eigen::Matrix< double, 1, 3 >] (a row). *)
Record RowVector3d : Type := row3 { r0 : float; r1 : float; r2 : float }.

(** [basic_mathematics::Vector6d]: a position followed by a velocity. *)
Record Vector6d : Type :=
  vec6 { c0 : float; c1 : float; c2 : float; c3 : float; c4 : float; c5 : float }.

(** [Matrix< double, 3, Dynamic >] as the list of its columns, and
    [Matrix< double, 1, Dynamic >] as the list of its coefficients. *)
Definition Matrix3Xd : Type := list Vector3d.
Definition RowVectorXd : Type := list float.

(** [v.segment( 0, 3 )] and [v.segment( 3, 3 )]. *)
Definition segment_0_3 (v : Vector6d) : Vector3d := vec3 (c0 v) (c1 v) (c2 v).
Definition segment_3_3 (v : Vector6d) : Vector3d := vec3 (c3 v) (c4 v) (c5 v).

Definition transpose (v : Vector3d) : RowVector3d := row3 (vx v) (vy v) (vz v).
Definition row_transpose (r : RowVector3d) : Vector3d := vec3 (r0 r) (r1 r) (r2 r).

(** [a - b], coefficient by coefficient. *)
Definition sub (a b : Vector3d) : Vector3d :=
  vec3 (vx a - vx b) (vy a - vy b) (vz a - vz b).

(** [v / s], [r / s], [r * s] and [- r]: one scalar operation per
    coefficient. *)
Definition div_scalar (v : Vector3d) (s : float) : Vector3d :=
  vec3 (vx v / s) (vy v / s) (vz v / s).
Definition row_div_scalar (r : RowVector3d) (s : float) : RowVector3d :=
  row3 (r0 r / s) (r1 r / s) (r2 r / s).
Definition row_mul_scalar (r : RowVector3d) (s : float) : RowVector3d :=
  row3 (r0 r * s) (r1 r * s) (r2 r * s).
Definition row_opp (r : RowVector3d) : RowVector3d :=
  row3 (- r0 r) (- r1 r) (- r2 r).
Definition rowX_mul_scalar (m : RowVectorXd) (s : float) : RowVectorXd :=
  map (fun a => a * s) m.

(** Eigen's sum reduction of three coefficients.  The order in which it
    associates the two additions depends on the Eigen version and on
    vectorisation, so the model takes the reduction as given; nothing proved
    below depends on the order. *)
Class Redux : Type :=
  sum3 : float -> float -> float -> float.

(** [( a + b ) + c], the order of Eigen's plain loop. *)
Definition sum3_sequential : Redux := fun a b c => (a + b) + c.

Section Reductions.
Context {R : Redux}.

(** [a.dot( b )]: the sum of the products [a_i * b_i]. *)
Definition dot (a b : Vector3d) : float :=
  sum3 (vx a * vx b) (vy a * vy b) (vz a * vz b).

(** [v.norm( )]: the square root of the sum of the squares. *)
Definition norm (v : Vector3d) : float :=
  sqrt (sum3 (vx v * vx v) (vy v * vy v) (vz v * vz v)).

(** The product of a 1x3 row with a 3xN matrix: one dot product per
    column. *)
Definition row_mul_matrix (r : RowVector3d) (m : Matrix3Xd) : RowVectorXd :=
  map (fun col => dot (row_transpose r) col) m.

End Reductions.

End Eigen.
Export Eigen.

(** ** [oneWayRangePartial.cpp]: class [OneWayRangeScaling] *)

Module OneWayRangeScaling.

Local Open Scope float_scope.

(** The data members the three member functions read and write. *)
Record object : Type := {
  transmitterReferenceScalingFactor_ : RowVector3d;
  receiverReferenceScalingFactor_ : RowVector3d;
  transmitterReferenceLightTimeCorrectionScaling_ : float;
  receiverReferenceLightTimeCorrectionScaling_ : float
}.

Section Members.
Context {R : Redux} {K : PhysicalConstants} {L : LexicalCast}.

(** [OneWayRangeScaling::update].  The arguments [times] and [fixedLinkEnd]
    are not read; [linkEndStates[ 0 ]] and [linkEndStates[ 1 ]] are. *)
Definition update (self : object) (linkEndStates : list Vector6d)
    (times : list float) (fixedLinkEnd : LinkEndType) : outcome object :=
  state0 <- at_index linkEndStates 0 ;;
  state1 <- at_index linkEndStates 1 ;;
  let rangeVector := sub (segment_0_3 state1) (segment_0_3 state0) in
  let rangeVectorNormalized :=
    row_div_scalar (transpose rangeVector) (norm rangeVector) in
  let receiverReferenceLightTimeCorrectionScaling :=
    1 / (1 - dot (row_transpose rangeVectorNormalized) (segment_3_3 state0)
             / SPEED_OF_LIGHT) in
  let receiverReferenceScalingFactor :=
    row_mul_scalar rangeVectorNormalized receiverReferenceLightTimeCorrectionScaling in
  let transmitterReferenceLightTimeCorrectionScaling :=
    1 / (1 - dot (row_transpose rangeVectorNormalized) (segment_3_3 state1)
             / SPEED_OF_LIGHT) in
  let transmitterReferenceScalingFactor :=
    row_mul_scalar rangeVectorNormalized transmitterReferenceLightTimeCorrectionScaling in
  Returns {|
    transmitterReferenceScalingFactor_ := transmitterReferenceScalingFactor;
    receiverReferenceScalingFactor_ := receiverReferenceScalingFactor;
    transmitterReferenceLightTimeCorrectionScaling_ :=
      transmitterReferenceLightTimeCorrectionScaling;
    receiverReferenceLightTimeCorrectionScaling_ :=
      receiverReferenceLightTimeCorrectionScaling
  |}.

(** [OneWayRangeScaling::getScalingFactor]. *)
Definition getScalingFactor (self : object) (linkEndType : LinkEndType)
    (referenceTimeLinkEnd : LinkEndType) : outcome RowVector3d :=
  scaling <-
    match referenceTimeLinkEnd with
    | transmitter => Returns (transmitterReferenceScalingFactor_ self)
    | receiver => Returns (receiverReferenceScalingFactor_ self)
    | _ =>
        Throws (runtime_error
          ("Error when getting one-way range scaling , link end type: "
           ++ lexical_cast referenceTimeLinkEnd ++ " not compatible."))
    end ;;
  match linkEndType with
  | receiver => Returns (row_mul_scalar scaling (-1))
  | _ => Returns scaling
  end.

(** [OneWayRangeScaling::getLightTimePartialScalingFactor]. *)
Definition getLightTimePartialScalingFactor (self : object)
    (referenceTimeLinkEnd : LinkEndType) : outcome float :=
  match referenceTimeLinkEnd with
  | transmitter => Returns (transmitterReferenceLightTimeCorrectionScaling_ self)
  | receiver => Returns (receiverReferenceLightTimeCorrectionScaling_ self)
  | _ =>
      Throws (runtime_error
        ("Error when getting one-way range light-time correction scaling , link end type: "
         ++ lexical_cast referenceTimeLinkEnd ++ " not compatible."))
  end.

End Members.

End OneWayRangeScaling.

(** ** [oneWayRangePartial.cpp]: class [OneWayRangePartial] *)

Module OneWayRangePartial.

Local Open Scope float_scope.

(** [PositionPartial::calculatePartial( state, time )], a 3xN matrix. *)
Definition PositionPartial : Type := Vector6d -> float -> Matrix3Xd.

(** An entry of [OneWayRangePartialReturnType]: a 1xN matrix and the time it
    is valid at. *)
Definition entry : Type := (RowVectorXd * float)%type.

(** A light-time correction partial function, called on the states and the
    times of all link ends. *)
Definition CorrectionPartialFunction : Type :=
  list Vector6d -> list float -> entry.

(** [positionPartialList_] is a [std::map] keyed by link end type: the list
    holds its pairs in the order the iterator visits them. *)
Record object : Type := {
  oneWayRangeScaler_ : OneWayRangeScaling.object;
  positionPartialList_ : list (LinkEndType * PositionPartial);
  lighTimeCorrectionPartialsFunctions_ : list CorrectionPartialFunction
}.

(** [v[ v.size( ) - 1 ].first *= s]. *)
Fixpoint scale_last (v : list entry) (s : float) : list entry :=
  match v with
  | [] => []
  | [e] => [(rowX_mul_scalar (fst e) s, snd e)]
  | e :: rest => e :: scale_last rest s
  end.

Section Members.
Context {R : Redux} {K : PhysicalConstants} {L : LexicalCast}.
Variable self : object.
Variable states : list Vector6d.
Variable times : list float.
Variable linkEndOfFixedTime : LinkEndType.

(** The first loop of [calculatePartial].  [current] is the pair
    [currentState], [currentTime]; both are declared without a value, so it
    is [None] until the first assignment, and a use before that is
    undefined. *)
Fixpoint positionPartialLoop (iterator : list (LinkEndType * PositionPartial))
    (current : option (Vector6d * float)) (returnPartial : list entry)
    : outcome (list entry) :=
  match iterator with
  | [] => Returns returnPartial
  | (first, second) :: next =>
      current' <-
        match first with
        | transmitter =>
            s <- at_index states 0 ;; t <- at_index times 0 ;; Returns (Some (s, t))
        | receiver =>
            s <- at_index states 1 ;; t <- at_index times 1 ;; Returns (Some (s, t))
        | _ => Returns current
        end ;;
      scaling <-
        OneWayRangeScaling.getScalingFactor (oneWayRangeScaler_ self) first
          linkEndOfFixedTime ;;
      match current' with
      | None => UndefinedBehaviour
      | Some (currentState, currentTime) =>
          positionPartialLoop next current'
            (returnPartial
             ++ [(row_mul_matrix scaling (second currentState currentTime), currentTime)])
      end
  end.

(** The second loop of [calculatePartial]. *)
Fixpoint lightTimeCorrectionLoop (functions : list CorrectionPartialFunction)
    (returnPartial : list entry) : outcome (list entry) :=
  match functions with
  | [] => Returns returnPartial
  | f :: next =>
      let pushed := returnPartial ++ [f states times] in
      scaling <-
        OneWayRangeScaling.getLightTimePartialScalingFactor (oneWayRangeScaler_ self)
          linkEndOfFixedTime ;;
      lightTimeCorrectionLoop next
        (scale_last pushed (-1 * SPEED_OF_LIGHT * scaling))
  end.

(** [OneWayRangePartial::calculatePartial]. *)
Definition calculatePartial : outcome (list entry) :=
  returnPartial <- positionPartialLoop (positionPartialList_ self) None [] ;;
  lightTimeCorrectionLoop (lighTimeCorrectionPartialsFunctions_ self) returnPartial.

End Members.

End OneWayRangePartial.

(** ** [oneWayRangeObservationModel.h]: class [OneWayRangeObservationModel] *)

Module OneWayRangeObservationModel.

Local Open Scope float_scope.

(** The two member functions of [LightTimeCalculator] the class calls
    ([lightTimeSolution.h] is not among the sources, so the calculator is
    taken as given).  [calculateLightTimeWithLinkEndsStates] receives the
    receiver and the transmitter state by reference and overwrites them: the
    model passes their old values in and gets the light time and the new
    values, in the same order, back. *)
Record LightTimeCalculator : Type := {
  calculateLightTime : float -> bool -> outcome float;
  calculateLightTimeWithLinkEndsStates :
    Vector6d -> Vector6d -> float -> bool -> outcome (float * Vector6d * Vector6d)
}.

(** The data members: the calculator and the two pre-declared states. *)
Record object : Type := {
  lightTimeCalculator_ : LightTimeCalculator;
  receiverState : Vector6d;
  transmitterState : Vector6d
}.

(** What [computeIdealObservationsWithLinkEndData] leaves behind: the 1x1
    observable it returns, the two vectors it received by reference, and the
    object with its two states overwritten. *)
Record linkEndData : Type := {
  observable : float;
  linkEndTimes : list float;
  linkEndStates : list Vector6d;
  model : object
}.

Section Members.
Context {K : PhysicalConstants} {L : LexicalCast}.

(** [computeIdealObservations].  The flag [isTimeAtReception] starts as
    [-1] converted to [bool]; every path that reads it has assigned it
    before. *)
Definition computeIdealObservations (self : object) (time : float)
    (linkEndAssociatedWithTime : LinkEndType) : outcome float :=
  isTimeAtReception <-
    match linkEndAssociatedWithTime with
    | receiver => Returns true
    | transmitter => Returns false
    | _ =>
        Throws (runtime_error
          "Error when calculating one way range observation, link end is not transmitter or receiver")
    end ;;
  lightTime <- calculateLightTime (lightTimeCalculator_ self) time isTimeAtReception ;;
  Returns (lightTime * getSpeedOfLight).

(** [computeIdealObservationsWithLinkEndData].  The two [static_cast]s to
    [double] and the two [cast< double >( )] are the identity at the
    default template arguments. *)
Definition computeIdealObservationsWithLinkEndData (self : object) (time : float)
    (linkEndAssociatedWithTime : LinkEndType)
    (linkEndTimes0 : list float) (linkEndStates0 : list Vector6d)
    : outcome linkEndData :=
  '(observation, transmissionTime, receptionTime, receiverState', transmitterState') <-
    match linkEndAssociatedWithTime with
    | receiver =>
        '(observation, receiverState', transmitterState') <-
          calculateLightTimeWithLinkEndsStates (lightTimeCalculator_ self)
            (receiverState self) (transmitterState self) time true ;;
        Returns (observation, time - observation, time, receiverState', transmitterState')
    | transmitter =>
        '(observation, receiverState', transmitterState') <-
          calculateLightTimeWithLinkEndsStates (lightTimeCalculator_ self)
            (receiverState self) (transmitterState self) time false ;;
        Returns (observation, time, time + observation, receiverState', transmitterState')
    | _ =>
        Throws (runtime_error
          ("Error, cannot have link end type: "
           ++ lexical_cast linkEndAssociatedWithTime ++ "for one-way range"))
    end ;;
  let observation := observation * getSpeedOfLight in
  let linkEndTimes1 := linkEndTimes0 ++ [transmissionTime] in
  let linkEndTimes2 := linkEndTimes1 ++ [receptionTime] in
  let linkEndStates1 := linkEndStates0 ++ [transmitterState'] in
  let linkEndStates2 := linkEndStates1 ++ [receiverState'] in
  Returns {|
    observable := observation;
    linkEndTimes := linkEndTimes2;
    linkEndStates := linkEndStates2;
    model := {|
      lightTimeCalculator_ := lightTimeCalculator_ self;
      receiverState := receiverState';
      transmitterState := transmitterState'
    |}
  |}.

End Members.

(** The two member functions of a calculator agree when, on the same time
    and flag, one returns a light time exactly when the other returns that
    light time. *)
Definition calculatorAgrees (calculator : LightTimeCalculator) : Prop :=
  forall (rx tx : Vector6d) (time : float) (isTimeAtReception : bool) (lightTime : float),
    calculateLightTime calculator time isTimeAtReception = Returns lightTime
    <-> exists rx' tx',
          calculateLightTimeWithLinkEndsStates calculator rx tx time isTimeAtReception
          = Returns (lightTime, rx', tx').

End OneWayRangeObservationModel.

(** ** The scaling factor as the specification words it *)

Module Specification.

Local Open Scope float_scope.

Section Scaling.
Context {R : Redux} {K : PhysicalConstants}.

(** The unit line-of-sight vector, from the position of the transmitter to
    the position of the receiver. *)
Definition unitLineOfSight (transmitterState receiverState : Vector6d) : Vector3d :=
  let lineOfSight := sub (segment_0_3 receiverState) (segment_0_3 transmitterState) in
  div_scalar lineOfSight (norm lineOfSight).

(** [1 / (1 - v.s / c)]. *)
Definition transitTimeRateFactor (v s : Vector3d) : float :=
  1 / (1 - dot v s / SPEED_OF_LIGHT).

(** The transposed unit line-of-sight vector times the factor of the
    velocity [v]. *)
Definition scalingFactor (v : Vector3d) (transmitterState receiverState : Vector6d)
    : RowVector3d :=
  let s := unitLineOfSight transmitterState receiverState in
  row_mul_scalar (transpose s) (transitTimeRateFactor v s).

End Scaling.

(** The factor the object holds for a reference link end, when it holds
    one. *)
Definition selectedFactor (self : OneWayRangeScaling.object) (reference : LinkEndType)
    : option RowVector3d :=
  match reference with
  | transmitter => Some (OneWayRangeScaling.transmitterReferenceScalingFactor_ self)
  | receiver => Some (OneWayRangeScaling.receiverReferenceScalingFactor_ self)
  | retransmitter _ => None
  end.

(** Negation exactly when the differentiated link end is the receiver. *)
Definition negatedForReceiver (differentiated : LinkEndType) (factor : RowVector3d)
    : RowVector3d :=
  match differentiated with
  | receiver => row_opp factor
  | _ => factor
  end.

(** A raw light-time correction partial, evaluated on all states and times,
    with its matrix multiplied by the scalar [s]; its time is kept. *)
Definition scaledCorrectionPartial (states : list Vector6d) (times : list float)
    (s : float) (f : OneWayRangePartial.CorrectionPartialFunction)
    : OneWayRangePartial.entry :=
  (rowX_mul_scalar (fst (f states times)) s, snd (f states times)).

(** The anchor link end of a flag: the receiver when the time is the
    reception time, the transmitter otherwise. *)
Definition anchorOf (isTimeAtReception : bool) : LinkEndType :=
  if isTimeAtReception then receiver else transmitter.

End Specification.

(** ** A concrete link, to run the definitions on *)

Module Sample.

Local Open Scope float_scope.

Definition constants : PhysicalConstants :=
  {| SPEED_OF_LIGHT := 299792458; getSpeedOfLight := 299792458 |}.

Definition numbering : LexicalCast :=
  fun linkEnd =>
    match linkEnd with
    | transmitter => "0"
    | retransmitter _ => "1"
    | receiver => "2"
    end%string.

(** A transmitter at the origin moving along x, a receiver 5e8 m away
    moving along y. *)
Definition transmitterState : Vector6d := vec6 0 0 0 1000 0 0.
Definition receiverState : Vector6d := vec6 3e8 4e8 0 0 2000 0.

Definition blank : OneWayRangeScaling.object :=
  {| OneWayRangeScaling.transmitterReferenceScalingFactor_ := row3 0 0 0;
     OneWayRangeScaling.receiverReferenceScalingFactor_ := row3 0 0 0;
     OneWayRangeScaling.transmitterReferenceLightTimeCorrectionScaling_ := 0;
     OneWayRangeScaling.receiverReferenceLightTimeCorrectionScaling_ := 0 |}.

(** The scaling object after [update] on the two states. *)
Definition scaler : OneWayRangeScaling.object :=
  Eval vm_compute in
    match OneWayRangeScaling.update (R := sum3_sequential) (K := constants) blank
            [transmitterState; receiverState] [0; 1.5] receiver with
    | Returns s => s
    | _ => blank
    end.

(** A calculator that reports a light time of 1.5 s and the two states. *)
Definition calculator : OneWayRangeObservationModel.LightTimeCalculator :=
  {| OneWayRangeObservationModel.calculateLightTime := fun _ _ => Returns 1.5;
     OneWayRangeObservationModel.calculateLightTimeWithLinkEndsStates :=
       fun _ _ _ _ => Returns (1.5, receiverState, transmitterState) |}.

Definition observationModel : OneWayRangeObservationModel.object :=
  {| OneWayRangeObservationModel.lightTimeCalculator_ := calculator;
     OneWayRangeObservationModel.receiverState := vec6 0 0 0 0 0 0;
     OneWayRangeObservationModel.transmitterState := vec6 0 0 0 0 0 0 |}.

(** A partial object with a position partial at each link end (the 3x3
    identity and its double) and one light-time correction partial. *)
Definition identity3 : Matrix3Xd := [vec3 1 0 0; vec3 0 1 0; vec3 0 0 1].
Definition twice3 : Matrix3Xd := [vec3 2 0 0; vec3 0 2 0; vec3 0 0 2].

Definition correctionPartial : OneWayRangePartial.CorrectionPartialFunction :=
  fun states times => ([0.25; 0.5; 4], nth 0 times 0).

Definition partial : OneWayRangePartial.object :=
  {| OneWayRangePartial.oneWayRangeScaler_ := scaler;
     OneWayRangePartial.positionPartialList_ :=
       [(transmitter, fun _ _ => identity3); (receiver, fun _ _ => twice3)];
     OneWayRangePartial.lighTimeCorrectionPartialsFunctions_ := [correctionPartial] |}.

(** What [calculatePartial] returns on the sample, the receiver time fixed. *)
Definition partials : list OneWayRangePartial.entry :=
  Eval vm_compute in
    match OneWayRangePartial.calculatePartial (R := sum3_sequential) (K := constants)
            (L := numbering) partial [transmitterState; receiverState] [8.5; 10] receiver with
    | Returns r => r
    | _ => []
    end.

(** What [computeIdealObservationsWithLinkEndData] is to leave at time
    10 s, the receiver as anchor, on empty vectors. *)
Definition data : OneWayRangeObservationModel.linkEndData :=
  {| OneWayRangeObservationModel.observable := 449688687;
     OneWayRangeObservationModel.linkEndTimes := [8.5; 10];
     OneWayRangeObservationModel.linkEndStates := [transmitterState; receiverState];
     OneWayRangeObservationModel.model :=
       {| OneWayRangeObservationModel.lightTimeCalculator_ := calculator;
          OneWayRangeObservationModel.receiverState := receiverState;
          OneWayRangeObservationModel.transmitterState := transmitterState |} |}.

End Sample.

(** ** What [calculatePartial] and the two classes around it come to *)

Module Characterisation.

Local Open Scope float_scope.

Section Entries.
Context {R : Redux}.

(** The entry [calculatePartial] makes for a position partial at the
    transmitter or at the receiver, [factor] being the scaling factor the
    reference link end selects: the partial is evaluated on the state and
    the time of its own link end, and the factor is negated for the
    receiver. *)
Definition positionPartialEntry (factor : RowVector3d)
    (transmitterState receiverState : Vector6d) (transmissionTime receptionTime : float)
    (p : LinkEndType * OneWayRangePartial.PositionPartial) : OneWayRangePartial.entry :=
  match fst p with
  | receiver =>
      (row_mul_matrix (row_opp factor) (snd p receiverState receptionTime), receptionTime)
  | _ =>
      (row_mul_matrix factor (snd p transmitterState transmissionTime), transmissionTime)
  end.

End Entries.

(** A scaling object before its first [update]. *)
Definition unset : OneWayRangeScaling.object :=
  {| OneWayRangeScaling.transmitterReferenceScalingFactor_ := row3 0 0 0;
     OneWayRangeScaling.receiverReferenceScalingFactor_ := row3 0 0 0;
     OneWayRangeScaling.transmitterReferenceLightTimeCorrectionScaling_ := 0;
     OneWayRangeScaling.receiverReferenceLightTimeCorrectionScaling_ := 0 |}.

End Characterisation.

(** ** [oneDimensionalInterpolator.h]: class [OneDimensionalInterpolator] *)

Module OneDimensionalInterpolator.

(** [interpolator.h], which declares [enum BoundaryInterpolationType], is not
    among the sources: the enumerators are the seven this file names, and
    [other_boundary_handling] stands for any further value of the
    enumeration's underlying type. *)
Inductive BoundaryInterpolationType : Type :=
| throw_exception_at_boundary
| use_boundary_value
| use_boundary_value_with_warning
| extrapolate_at_boundary
| extrapolate_at_boundary_with_warning
| use_default_value
| use_default_value_with_warning
| other_boundary_handling (value : Z).

(** What a member function wrote to [std::cerr], one string per line, and
    how it ended. *)
Definition logged (A : Type) : Type := (list string * outcome A)%type.

Definition quiet {A : Type} (o : outcome A) : logged A := ([], o).

Definition andThen {A B : Type} (m : logged A) (k : A -> logged B) : logged B :=
  match snd m with
  | Returns a => (fst m ++ fst (k a), snd (k a))
  | Throws e => (fst m, Throws e)
  | UndefinedBehaviour => (fst m, UndefinedBehaviour)
  end.

(** [std::cerr << message << std::endl]. *)
Definition cerr_line (message : string) : logged unit := ([message], Returns tt).

(** [v.front( )] and [v.back( )]: undefined on an empty vector. *)
Definition front {A : Type} (v : list A) : outcome A := at_index v 0.
Definition back {A : Type} (v : list A) : outcome A :=
  at_index v (List.length v - 1).

Section Class.
(** The two template arguments, the comparisons and the lexical cast of the
    independent variable, and the one-argument [interpolate] a derived class
    supplies. *)
Variable IndependentVariableType DependentVariableType : Type.
Variable less greater : IndependentVariableType -> IndependentVariableType -> bool.
Variable lexical_cast : IndependentVariableType -> string.

(** The data members the functions below read. *)
Record object : Type := {
  dependentValues_ : list DependentVariableType;
  independentValues_ : list IndependentVariableType;
  boundaryHandling_ : BoundaryInterpolationType;
  defaultExtrapolationValue_ : DependentVariableType
}.

Variable interpolate1 : object -> IndependentVariableType -> outcome DependentVariableType.

(** [interpolate( const std::vector< IndependentVariableType >& )]. *)
Definition interpolate (self : object)
    (independentVariableValues : list IndependentVariableType)
    : outcome DependentVariableType :=
  if negb (Nat.eqb (List.length independentVariableValues) 1)
  then Throws (runtime_error
         "Error in 1-dimensional interpolator, provided input is not 1-dimensional.")
  else
    x <- at_index independentVariableValues 0 ;;
    interpolate1 self x.

(** [interpolateNonConst] and [getNumberOfDimensions]. *)
Definition interpolateNonConst (self : object)
    (independentVariableValue : IndependentVariableType) : outcome DependentVariableType :=
  interpolate1 self independentVariableValue.

Definition getNumberOfDimensions (self : object) : Z := 1.

(** [checkInterpolationBoundary]. *)
Definition checkInterpolationBoundary (self : object)
    (targetIndependentVariableValue : IndependentVariableType) : outcome Z :=
  let isAtBoundary := 0%Z in
  lowest <- front (independentValues_ self) ;;
  if less targetIndependentVariableValue lowest
  then Returns (-1)%Z
  else
    highest <- back (independentValues_ self) ;;
    if greater targetIndependentVariableValue highest
    then Returns 1%Z
    else Returns isAtBoundary.

(** The message the three warnings and the boundary error share, up to its
    first word and its ending. *)
Definition boundaryMessage (self : object) (start : string)
    (targetIndependentVariableValue : IndependentVariableType) (ending : string)
    : outcome string :=
  lowest <- front (independentValues_ self) ;;
  highest <- back (independentValues_ self) ;;
  Returns (start
           ++ " in interpolator, requesting data point outside of boundaries, requested data at: "
           ++ lexical_cast targetIndependentVariableValue ++ " but limit values are "
           ++ lexical_cast lowest ++ " and " ++ lexical_cast highest ++ ending)%string.

(** [checkBoundaryCase].  The two reference arguments come in with their
    old values and go out, in the same order, with their new ones. *)
Definition checkBoundaryCase (self : object) (dependentVariable : DependentVariableType)
    (useValue : bool) (targetIndependentVariableValue : IndependentVariableType)
    : logged (DependentVariableType * bool) :=
  let useValue := false in
  match boundaryHandling_ self with
  | extrapolate_at_boundary => quiet (Returns (dependentVariable, useValue))
  | handling =>
      andThen (quiet (checkInterpolationBoundary self targetIndependentVariableValue))
        (fun isAtBoundary =>
      if (isAtBoundary =? 0)%Z
      then quiet (Returns (dependentVariable, useValue))
      else
        match handling with
        | throw_exception_at_boundary =>
            andThen (quiet (boundaryMessage self "Error" targetIndependentVariableValue ""))
              (fun errorMessage => quiet (Throws (runtime_error errorMessage)))
        | extrapolate_at_boundary_with_warning =>
            andThen (quiet (boundaryMessage self "Warning" targetIndependentVariableValue
                              ", applying extrapolation instead."))
              (fun errorMessage =>
            andThen (cerr_line errorMessage)
              (fun _ => quiet (Returns (dependentVariable, useValue))))
        | use_boundary_value | use_boundary_value_with_warning =>
            andThen
              (match handling with
               | use_boundary_value_with_warning =>
                   andThen (quiet (boundaryMessage self "Warning"
                                     targetIndependentVariableValue
                                     ", taking boundary value instead."))
                     cerr_line
               | _ => quiet (Returns tt)
               end)
              (fun _ =>
            if (isAtBoundary =? -1)%Z
            then
              andThen (quiet (front (dependentValues_ self)))
                (fun boundaryValue => quiet (Returns (boundaryValue, true)))
            else if (isAtBoundary =? 1)%Z
            then
              andThen (quiet (back (dependentValues_ self)))
                (fun boundaryValue => quiet (Returns (boundaryValue, true)))
            else
              quiet (Throws (runtime_error
                "Error when checking interpolation boundary, inconsistent data encountered")))
        | use_default_value | use_default_value_with_warning =>
            andThen
              (match handling with
               | use_default_value_with_warning =>
                   andThen (quiet (boundaryMessage self "Warning"
                                     targetIndependentVariableValue
                                     ", taking default value instead."))
                     cerr_line
               | _ => quiet (Returns tt)
               end)
              (fun _ => quiet (Returns (defaultExtrapolationValue_ self, true)))
        | _ =>
            quiet (Throws (runtime_error
              "Error when checking interpolation boundary, boundary handling method not recognized"))
        end)
  end.

End Class.

(** The boundary handlings that warn. *)
Definition warns (handling : BoundaryInterpolationType) : bool :=
  match handling with
  | use_boundary_value_with_warning
  | extrapolate_at_boundary_with_warning
  | use_default_value_with_warning => true
  | _ => false
  end.

(** The instance at [double]: [a > b] is [b < a]. *)
Definition less_double (a b : float) : bool := PrimFloat.ltb a b.
Definition greater_double (a b : float) : bool := PrimFloat.ltb b a.

End OneDimensionalInterpolator.

(** ** [rotationalMotionExponentialMapStateDerivative.h]: [postProcessState] *)

Module RotationalMotionExponentialMapStateDerivative.

Local Open Scope float_scope.

(** [mathematicalConstants.h] is not among the sources: the model takes the
    value of [mathematical_constants::PI] as given. *)
Class MathematicalConstants : Type :=
  PI : float.

(** [Eigen::Matrix< double, Eigen::Dynamic, 1 >], the class at its default
    template arguments. *)
Definition VectorXd : Type := list float.

(** The value of an [unsigned int] expression: arithmetic modulo 2^32. *)
Definition unsigned_int (z : Z) : Z := (z mod 4294967296)%Z.

(** [v.block( row, 0, 3, 1 )] read as a [Vector3d]: undefined unless the
    three rows are rows of [v]. *)
Definition block3 (v : VectorXd) (row : Z) : outcome Vector3d :=
  if (row <? 0)%Z then UndefinedBehaviour
  else
    match skipn (Z.to_nat row) v with
    | a :: b :: c :: _ => Returns (vec3 a b c)
    | _ => UndefinedBehaviour
    end.

(** [v.segment( row, 3 ) = x]: undefined unless the three rows are rows of
    [v]. *)
Definition set_segment3 (v : VectorXd) (row : Z) (x : Vector3d) : outcome VectorXd :=
  if (row <? 0)%Z then UndefinedBehaviour
  else
    match skipn (Z.to_nat row) v with
    | _ :: _ :: _ :: rest => Returns (firstn (Z.to_nat row) v ++ vx x :: vy x :: vz x :: rest)
    | _ => UndefinedBehaviour
    end.

(** [x *= s] on a [Vector3d]. *)
Definition mul_scalar (x : Vector3d) (s : float) : Vector3d :=
  vec3 (vx x * s) (vy x * s) (vz x * s).

(** The one member of the base class the function reads. *)
Record object : Type := {
  bodiesToPropagate_ : list string
}.

Section Members.
Context {R : Redux} {M : MathematicalConstants}.

(** The exponential map or its shadow: [x * ( 1 - 2 PI / | x | )]. *)
Definition shadow (exponentialMapVector : Vector3d) : Vector3d :=
  mul_scalar exponentialMapVector (1 - (2 * PI / norm exponentialMapVector)).

(** The loop of [postProcessState]: [i] counts up from 0 as an
    [unsigned int], [remaining] bodies are still to be visited (fewer than
    2^32 in all). *)
Fixpoint postProcessLoop (remaining i : nat) (unprocessedState : VectorXd)
    (startRow : Z) : outcome VectorXd :=
  match remaining with
  | O => Returns unprocessedState
  | S remaining' =>
      exponentialMapVector <-
        block3 unprocessedState (unsigned_int (Z.of_nat i * 6)) ;;
      let exponentialMapMagnitude := norm exponentialMapVector in
      if PrimFloat.leb PI exponentialMapMagnitude
      then
        unprocessedState' <-
          set_segment3 unprocessedState (unsigned_int (startRow + Z.of_nat i * 6))
            (shadow exponentialMapVector) ;;
        postProcessLoop remaining' (S i) unprocessedState' startRow
      else postProcessLoop remaining' (S i) unprocessedState startRow
  end.

(** [postProcessState]; [startRow] is an [int]. *)
Definition postProcessState (self : object) (unprocessedState : VectorXd)
    (startRow : Z) : outcome VectorXd :=
  postProcessLoop (List.length (bodiesToPropagate_ self)) 0 unprocessedState startRow.

(** [getPropagatedStateSize] and [isStateToBePostProcessed]. *)
Definition getPropagatedStateSize (self : object) : Z :=
  (6 * Z.of_nat (List.length (bodiesToPropagate_ self)))%Z.

Definition isStateToBePostProcessed (self : object) : bool := true.


End Members.

(** A state vector made of six rows per body. *)
Definition rows (body : Vector6d) : VectorXd :=
  [c0 body; c1 body; c2 body; c3 body; c4 body; c5 body].

Definition stateOf (bodies : list Vector6d) : VectorXd := flat_map rows bodies.

(** The row [postProcessState] starts writing at for body [i]. *)
Definition writtenRow (startRow : Z) (i : nat) : Z :=
  unsigned_int (startRow + Z.of_nat i * 6).

End RotationalMotionExponentialMapStateDerivative.

(** ** [massDerivativePartial.h]: classes [MassRatePartial] and
    [FromThrustMassRatePartial] *)

Module MassRatePartial.

(** The header that declares [enum IntegratedStateType] is not among the
    sources: the enumerators are the four the [switch] names, and
    [other_state_type] stands for any further value, the one the [default]
    case is for. *)
Inductive IntegratedStateType : Type :=
| translational_state
| rotational_state
| body_mass_state
| custom_state
| other_state_type (value : Z).

(** What the returned [std::function] is bound to; [emptyFunction] is the
    default-constructed [std::function]. *)
Inductive partialFunction : Type :=
| emptyFunction
| wrtTranslationalStateOfBody
| wrtTranslationalStateOfAdditionalBody (bodyName : string)
| wrtMassOfBody.

Section Class.
(** [std::to_string] of a state type, and the two virtual functions a derived
    class supplies. *)
Variable to_string : IntegratedStateType -> string.
Variable isStateDerivativeDependentOnIntegratedAdditionalStateTypes :
  string * string -> IntegratedStateType -> bool.
Variable isMassRatePartialWrtMassNonZero : bool.

(** [MassRatePartial::getDerivativeFunctionWrtStateOfIntegratedBody], on an
    object whose member [body_] is [body]. *)
Definition getDerivativeFunctionWrtStateOfIntegratedBody (body : string)
    (stateReferencePoint : string * string) (integratedStateType : IntegratedStateType)
    : outcome (partialFunction * Z) :=
  let partialFunction := (emptyFunction, 0%Z) in
  match integratedStateType with
  | translational_state =>
      if negb (String.eqb (snd stateReferencePoint) "")
      then Throws (runtime_error
             "Error when getting mass rate derivative model, cannot have reference point on body for translational dynamics")
      else if String.eqb body (fst stateReferencePoint)
              && isStateDerivativeDependentOnIntegratedAdditionalStateTypes
                   stateReferencePoint integratedStateType
      then Returns (wrtTranslationalStateOfBody, 6%Z)
      else if isStateDerivativeDependentOnIntegratedAdditionalStateTypes
                stateReferencePoint integratedStateType
      then Returns (wrtTranslationalStateOfAdditionalBody (fst stateReferencePoint), 6%Z)
      else Returns partialFunction
  | rotational_state =>
      Throws (runtime_error
        "Error when getting mass rate partial, rotational dynamics partial no yet implemented")
  | body_mass_state =>
      if negb (String.eqb (snd stateReferencePoint) "")
      then Throws (runtime_error
             "Error when getting state derivative partial acceleration model, cannot have reference point on body for body mass")
      else if isMassRatePartialWrtMassNonZero
      then Returns (wrtMassOfBody, 1%Z)
      else Returns partialFunction
  | custom_state => Returns partialFunction
  | other_state_type _ =>
      Throws (runtime_error
        ("Error when getting state derivative partial acceleration model, dynamics type "
         ++ to_string integratedStateType ++ "not recognized"))
  end.

End Class.

(** [FromThrustMassRatePartial]: the map [accelerationBasedThrustSources_],
    by its pairs, over any type of engine model. *)
Section FromThrust.
Variable EngineModel : Type.

Definition FromThrust_isMassRatePartialWrtMassNonZero
    (accelerationBasedThrustSources_ : list (Z * list EngineModel)) : bool :=
  if Nat.eqb (List.length accelerationBasedThrustSources_) 0 then false else true.

Definition FromThrust_isStateDerivativeDependentOnIntegratedAdditionalStateTypes
    (stateReferencePoint : string * string) (integratedStateType : IntegratedStateType)
    : bool :=
  false.

(** The function of the base class as the derived class inherits it. *)
Definition FromThrust_getDerivativeFunctionWrtStateOfIntegratedBody
    (to_string : IntegratedStateType -> string) (body : string)
    (accelerationBasedThrustSources_ : list (Z * list EngineModel)) :=
  getDerivativeFunctionWrtStateOfIntegratedBody to_string
    FromThrust_isStateDerivativeDependentOnIntegratedAdditionalStateTypes
    (FromThrust_isMassRatePartialWrtMassNonZero accelerationBasedThrustSources_)
    body.

End FromThrust.

End MassRatePartial.

(** ** Further concrete objects, to run the definitions on *)

Module FurtherSample.

Local Open Scope float_scope.

(** A partial object whose second position partial is keyed by a
    retransmitter. *)
Definition partialWithRetransmitter : OneWayRangePartial.object :=
  {| OneWayRangePartial.oneWayRangeScaler_ := Sample.scaler;
     OneWayRangePartial.positionPartialList_ :=
       [(transmitter, fun _ _ => Sample.identity3);
        (retransmitter 0, fun _ _ => Sample.twice3)];
     OneWayRangePartial.lighTimeCorrectionPartialsFunctions_ :=
       [Sample.correctionPartial] |}.



(** An interpolator over [double] with data on 0, 1, 2. *)
Definition interpolator
    (handling : OneDimensionalInterpolator.BoundaryInterpolationType)
    : OneDimensionalInterpolator.object float float :=
  {| OneDimensionalInterpolator.dependentValues_ := [10; 20; 40];
     OneDimensionalInterpolator.independentValues_ := [0; 1; 2];
     OneDimensionalInterpolator.boundaryHandling_ := handling;
     OneDimensionalInterpolator.defaultExtrapolationValue_ := 0.5 |}.

(** A lexical cast that tells the three data points and the two requests
    used below apart. *)
Definition show (x : float) : string :=
  if PrimFloat.eqb x 0 then "0"
  else if PrimFloat.eqb x 2 then "2"
  else if PrimFloat.eqb x 5 then "5"
  else if PrimFloat.eqb x (-1) then "-1"
  else "?".

(** The double nearest to pi. *)
Definition pi : RotationalMotionExponentialMapStateDerivative.MathematicalConstants :=
  0x1.921fb54442d18p+1.

Definition oneBody : RotationalMotionExponentialMapStateDerivative.object :=
  {| RotationalMotionExponentialMapStateDerivative.bodiesToPropagate_ := ["Phobos"%string] |}.

Definition twoBodies : RotationalMotionExponentialMapStateDerivative.object :=
  {| RotationalMotionExponentialMapStateDerivative.bodiesToPropagate_ :=
       ["Phobos"%string; "Deimos"%string] |}.

(** A body turned by 4 rad about x, and one turned by 1 rad. *)
Definition turnedFar : Vector6d := vec6 4 0 0 0.125 0.25 0.5.
Definition turnedLittle : Vector6d := vec6 1 0 0 0 0 0.25.

(** The state of [turnedFar] and one further row, after [postProcessState]
    with [startRow = 3]. *)
Definition processedFrom3 : RotationalMotionExponentialMapStateDerivative.VectorXd :=
  Eval vm_compute in
    match RotationalMotionExponentialMapStateDerivative.postProcessState
            (R := sum3_sequential) (M := pi) oneBody
            (RotationalMotionExponentialMapStateDerivative.rows turnedFar ++ [7]) 3 with
    | Returns s => s
    | _ => []
    end.

End FurtherSample.

(** * Properties *)

(** ** Binary64 arithmetic *)

Module Binary64.

Local Open Scope float_scope.

Lemma mul_comm (a b : float) : a * b = b * a.
Proof.
  apply Prim2SF_inj. rewrite !mul_spec. unfold SF64mul.
  destruct (Prim2SF a) as [sa|sa| |sa ma ea], (Prim2SF b) as [sb|sb| |sb mb eb]; cbn;
    rewrite ?(xorb_comm sa sb); try reflexivity.
  now rewrite (Pos.mul_comm ma mb), (Z.add_comm ea eb).
Qed.

(** The literal [-1.0]: sign set, mantissa [2^52], exponent [-52]. *)
Lemma Prim2SF_minus_one : Prim2SF (-1) = S754_finite true 4503599627370496 (-52).
Proof. reflexivity. Qed.

Lemma shr_52 (m : positive) :
  iter_pos shr_1 52 {| shr_m := Z.pos (4503599627370496 * m); shr_r := false; shr_s := false |}
  = {| shr_m := Z.pos m; shr_r := false; shr_s := false |}.
Proof. reflexivity. Qed.

Lemma digits2_shl_52 (m : positive) :
  Z.pos (digits2_pos (4503599627370496 * m)) = (Z.pos (digits2_pos m) + 52)%Z.
Proof. cbn [Pos.mul digits2_pos]. lia. Qed.

Lemma shr_fexp_canonical (m : positive) (e : Z) :
  fexp prec emax (Z.pos (digits2_pos m) + e) = e ->
  shr_fexp prec emax (Z.pos m) e loc_Exact
  = ({| shr_m := Z.pos m; shr_r := false; shr_s := false |}, e).
Proof.
  intros Hc. unfold shr_fexp, Zdigits2. now rewrite Hc, Z.sub_diag.
Qed.

Lemma shr_fexp_shl_52 (m : positive) (e : Z) :
  fexp prec emax (Z.pos (digits2_pos m) + e) = e ->
  shr_fexp prec emax (Z.pos (4503599627370496 * m)) (e + -52) loc_Exact
  = ({| shr_m := Z.pos m; shr_r := false; shr_s := false |}, e).
Proof.
  intros Hc. unfold shr_fexp, Zdigits2.
  rewrite digits2_shl_52.
  replace (Z.pos (digits2_pos m) + 52 + (e + -52))%Z
    with (Z.pos (digits2_pos m) + e)%Z by lia.
  rewrite Hc.
  replace (e - (e + -52))%Z with 52%Z by lia.
  unfold shr. cbn [shr_record_of_loc]. rewrite shr_52.
  f_equal. lia.
Qed.

Lemma SF64mul_minus_one (s : spec_float) :
  valid_binary s = true ->
  SF64mul s (S754_finite true 4503599627370496 (-52)) = SFopp s.
Proof.
  destruct s as [sx|sx| |sx mx ex]; intros Hv;
    try (destruct sx; reflexivity); try reflexivity.
  unfold SF64mul, SFmul, SFopp.
  cbn in Hv. apply andb_true_iff in Hv as [Hc Hb].
  unfold canonical_mantissa in Hc. apply Z.eqb_eq in Hc.
  rewrite xorb_true_r, (Pos.mul_comm mx).
  unfold binary_round_aux.
  rewrite (shr_fexp_shl_52 _ _ Hc).
  cbn [shr_m loc_of_shr_record round_nearest_even].
  rewrite (shr_fexp_canonical _ _ Hc).
  cbn [shr_m]. now rewrite Hb.
Qed.

(** Multiplying by [-1.0] is exact: it only flips the sign (a NaN stays the
    NaN). *)
Lemma mul_minus_one (a : float) : a * (-1) = - a.
Proof.
  apply Prim2SF_inj. rewrite mul_spec, opp_spec, Prim2SF_minus_one.
  apply SF64mul_minus_one, Prim2SF_valid.
Qed.

End Binary64.

(** ** Outcomes and Eigen *)

Lemma bind_Returns_inv {A B : Type} (m : outcome A) (k : A -> outcome B) (b : B) :
  bind m k = Returns b -> exists a, m = Returns a /\ k a = Returns b.
Proof.
  destruct m as [a| |]; cbn; intros H; try discriminate. now exists a.
Qed.

Lemma dot_comm {R : Redux} (a b : Vector3d) : dot a b = dot b a.
Proof.
  unfold dot.
  now rewrite (Binary64.mul_comm (vx a)), (Binary64.mul_comm (vy a)),
    (Binary64.mul_comm (vz a)).
Qed.

Lemma row_mul_minus_one (r : RowVector3d) : row_mul_scalar r (-1)%float = row_opp r.
Proof.
  unfold row_mul_scalar, row_opp. now rewrite !Binary64.mul_minus_one.
Qed.

Lemma row_div_transpose (v : Vector3d) (s : float) :
  row_div_scalar (transpose v) s = transpose (div_scalar v s).
Proof. reflexivity. Qed.

Lemma row_transpose_transpose (v : Vector3d) : row_transpose (transpose v) = v.
Proof. now destruct v. Qed.

(** ** [OneWayRangeScaling] *)

Section ScalingProperties.
Context {R : Redux} {K : PhysicalConstants} {L : LexicalCast}.
Import OneWayRangeScaling Specification.

(** The factor [getScalingFactor] starts from is the one selected by the
    reference link end. *)
Lemma getScalingFactor_selected (self : object) (differentiated reference : LinkEndType)
    (factor : RowVector3d) :
  selectedFactor self reference = Some factor ->
  getScalingFactor self differentiated reference
  = Returns (negatedForReceiver differentiated factor).
Proof.
  intros Hsel.
  destruct reference; cbn in Hsel; try discriminate; injection Hsel as <-;
    destruct differentiated; cbn; now rewrite ?row_mul_minus_one.
Qed.

(** C1: after [update] on states ordered transmitter, receiver, the
    receiver-fixed scaling factor is the transposed unit line-of-sight vector
    (transmitter position to receiver position) times [1 / (1 - v.s / c)]
    with [v] the velocity of the transmitter, the transmitter-fixed factor is
    the same expression with the velocity of the receiver, and
    [getScalingFactor] returns the selected factor negated exactly when the
    differentiated link end is the receiver. *)
Theorem update_scaling_factors (self : object) (transmitterState receiverState : Vector6d)
    (more : list Vector6d) (times : list float) (fixedLinkEnd : LinkEndType) :
  exists self',
    update self (transmitterState :: receiverState :: more) times fixedLinkEnd
    = Returns self'
    /\ receiverReferenceScalingFactor_ self'
       = scalingFactor (segment_3_3 transmitterState) transmitterState receiverState
    /\ transmitterReferenceScalingFactor_ self'
       = scalingFactor (segment_3_3 receiverState) transmitterState receiverState
    /\ forall differentiated : LinkEndType,
         getScalingFactor self' differentiated receiver
         = Returns (negatedForReceiver differentiated (receiverReferenceScalingFactor_ self'))
         /\ getScalingFactor self' differentiated transmitter
            = Returns (negatedForReceiver differentiated
                         (transmitterReferenceScalingFactor_ self')).
Proof.
  eexists. split; [reflexivity|].
  cbn [receiverReferenceScalingFactor_ transmitterReferenceScalingFactor_].
  unfold scalingFactor, transitTimeRateFactor, unitLineOfSight.
  rewrite !row_div_transpose, !row_transpose_transpose.
  repeat split.
  - now rewrite (dot_comm (segment_3_3 transmitterState)).
  - now rewrite (dot_comm (segment_3_3 receiverState)).
  - now apply getScalingFactor_selected.
  - now apply getScalingFactor_selected.
Qed.

(** C3: for a fixed-time choice [X] among transmitter and receiver, and in
    every state of the object (so after any call to [update]),
    [getScalingFactor( receiver, X )] is the opposite of
    [getScalingFactor( transmitter, X )]. *)
Theorem getScalingFactor_antisymmetric (self : object) (X : LinkEndType) :
  X = transmitter \/ X = receiver ->
  exists factor,
    getScalingFactor self transmitter X = Returns factor
    /\ getScalingFactor self receiver X = Returns (row_opp factor).
Proof.
  intros [-> | ->]; eexists; (split; [reflexivity|]); cbn;
    now rewrite row_mul_minus_one.
Qed.

(** C9: [getScalingFactor] and [getLightTimePartialScalingFactor] throw if
    and only if the reference link end is neither transmitter nor receiver;
    for a transmitter or receiver reference they return a value. *)
Theorem scaling_getters_throw_iff (self : object) (differentiated reference : LinkEndType) :
  ((exists e, getScalingFactor self differentiated reference = Throws e)
   <-> reference <> transmitter /\ reference <> receiver)
  /\ ((exists e, getLightTimePartialScalingFactor self reference = Throws e)
      <-> reference <> transmitter /\ reference <> receiver)
  /\ (reference = transmitter \/ reference = receiver ->
      (exists factor, getScalingFactor self differentiated reference = Returns factor)
      /\ (exists scaling, getLightTimePartialScalingFactor self reference = Returns scaling)).
Proof.
  split; [|split].
  - split.
    + intros [e He]. split; intros ->; destruct differentiated; discriminate He.
    + intros [Ht Hr]. destruct reference; try contradiction; cbn; eauto.
  - split.
    + intros [e He]. split; intros ->; discriminate He.
    + intros [Ht Hr]. destruct reference; try contradiction; cbn; eauto.
  - intros [-> | ->]; destruct differentiated; cbn; eauto.
Qed.

(** C10: [getScalingFactor] does not validate the differentiated link end:
    for a transmitter or receiver reference and any differentiated role
    other than receiver, a retransmitter included, it returns the selected
    factor as it is, and for the receiver role it returns it negated. *)
Theorem getScalingFactor_differentiated_unchecked (self : object)
    (differentiated reference : LinkEndType) (factor : RowVector3d) :
  selectedFactor self reference = Some factor ->
  (differentiated <> receiver ->
   getScalingFactor self differentiated reference = Returns factor)
  /\ (forall n, getScalingFactor self (retransmitter n) reference = Returns factor)
  /\ getScalingFactor self receiver reference = Returns (row_opp factor).
Proof.
  intros Hsel. repeat split.
  - intros Hd. rewrite (getScalingFactor_selected _ _ _ _ Hsel).
    now destruct differentiated.
  - intros n. now rewrite (getScalingFactor_selected _ _ _ _ Hsel).
  - now rewrite (getScalingFactor_selected _ _ _ _ Hsel).
Qed.

End ScalingProperties.

(** ** [OneWayRangePartial] *)

Section PartialProperties.
Context {R : Redux} {K : PhysicalConstants} {L : LexicalCast}.
Import OneWayRangePartial Specification.
Variable self : object.
Variable states : list Vector6d.
Variable times : list float.
Variable fixedLinkEnd : LinkEndType.

Lemma scale_last_app (v : list entry) (e : entry) (s : float) :
  scale_last (v ++ [e]) s = v ++ [(rowX_mul_scalar (fst e) s, snd e)].
Proof.
  induction v as [|a v IH]; [reflexivity|].
  cbn [app scale_last]. rewrite IH.
  now destruct v.
Qed.

(** With a scaling at hand, the second loop appends one scaled entry per
    correction function, in order. *)
Lemma lightTimeCorrectionLoop_returns (scaling : float) :
  OneWayRangeScaling.getLightTimePartialScalingFactor (oneWayRangeScaler_ self) fixedLinkEnd
  = Returns scaling ->
  forall (functions : list CorrectionPartialFunction) (returnPartial : list entry),
    lightTimeCorrectionLoop self states times fixedLinkEnd functions returnPartial
    = Returns (returnPartial
               ++ map (scaledCorrectionPartial states times
                         (-1 * SPEED_OF_LIGHT * scaling)%float) functions).
Proof.
  intros Hk functions.
  induction functions as [|f next IH]; intros returnPartial; cbn.
  - now rewrite app_nil_r.
  - rewrite Hk. cbn. rewrite scale_last_app, IH, <- app_assoc. reflexivity.
Qed.

(** The first loop only appends, one entry per position partial. *)
Lemma positionPartialLoop_appends (iterator : list (LinkEndType * PositionPartial)) :
  forall (current : option (Vector6d * float)) (returnPartial result : list entry),
    positionPartialLoop self states times fixedLinkEnd iterator current returnPartial
    = Returns result ->
    exists positionEntries,
      result = returnPartial ++ positionEntries
      /\ List.length positionEntries = List.length iterator.
Proof.
  induction iterator as [|[first second] next IH]; intros current returnPartial result; cbn.
  - intros [= <-]. exists []. now rewrite app_nil_r.
  - intros H.
    apply bind_Returns_inv in H as (current' & _ & H).
    apply bind_Returns_inv in H as (scaling & _ & H).
    destruct current' as [[currentState currentTime]|]; [|discriminate].
    apply IH in H as (positionEntries & -> & Hlen).
    eexists (_ :: positionEntries). split.
    + now rewrite <- app_assoc.
    + cbn. now rewrite Hlen.
Qed.

(** The first loop runs to its end when the reference link end is valid,
    two states and two times are there, and every position partial sits at
    the transmitter or at the receiver. *)
Lemma positionPartialLoop_returns (iterator : list (LinkEndType * PositionPartial)) :
  fixedLinkEnd = transmitter \/ fixedLinkEnd = receiver ->
  2 <= List.length states -> 2 <= List.length times ->
  Forall (fun p => fst p = transmitter \/ fst p = receiver) iterator ->
  forall (current : option (Vector6d * float)) (returnPartial : list entry),
    exists result,
      positionPartialLoop self states times fixedLinkEnd iterator current returnPartial
      = Returns result.
Proof.
  intros Hfixed Hs Ht Hkeys.
  destruct states as [|s0 [|s1 ss]]; cbn in Hs; try lia.
  destruct times as [|t0 [|t1 ts]]; cbn in Ht; try lia.
  induction Hkeys as [|[first second] next Hkey _ IH]; intros current returnPartial.
  - now eexists.
  - cbn in Hkey. cbn [positionPartialLoop].
    destruct Hkey as [-> | ->], Hfixed as [-> | ->]; cbn; apply IH.
Qed.

(** C2: for a transmitter or receiver reference, what [calculatePartial]
    returns ends with one entry per light-time correction partial function,
    in order, and each is the raw correction partial evaluated on the full
    state and time sequence with its matrix multiplied by
    [-1 * SPEED_OF_LIGHT * getLightTimePartialScalingFactor( fixedLinkEnd )];
    the entries before them are those of the position partials. *)
Theorem calculatePartial_correction_entries (result : list entry) :
  fixedLinkEnd = transmitter \/ fixedLinkEnd = receiver ->
  calculatePartial self states times fixedLinkEnd = Returns result ->
  exists (positionEntries : list entry) (scaling : float),
    OneWayRangeScaling.getLightTimePartialScalingFactor (oneWayRangeScaler_ self) fixedLinkEnd
    = Returns scaling
    /\ List.length positionEntries = List.length (positionPartialList_ self)
    /\ result
       = positionEntries
         ++ map (scaledCorrectionPartial states times
                   (-1 * SPEED_OF_LIGHT * scaling)%float)
             (lighTimeCorrectionPartialsFunctions_ self).
Proof.
  intros Hfixed Hresult. unfold calculatePartial in Hresult.
  apply bind_Returns_inv in Hresult as (returnPartial & Hfirst & Hsecond).
  apply positionPartialLoop_appends in Hfirst as (positionEntries & -> & Hlen).
  assert (exists scaling,
             OneWayRangeScaling.getLightTimePartialScalingFactor
               (oneWayRangeScaler_ self) fixedLinkEnd = Returns scaling)
    as [scaling Hk] by (destruct Hfixed as [-> | ->]; cbn; eauto).
  rewrite (lightTimeCorrectionLoop_returns scaling Hk) in Hsecond.
  injection Hsecond as <-.
  exists positionEntries, scaling. now repeat split.
Qed.

(** On such inputs [calculatePartial] does return. *)
Lemma calculatePartial_returns :
  fixedLinkEnd = transmitter \/ fixedLinkEnd = receiver ->
  2 <= List.length states -> 2 <= List.length times ->
  Forall (fun p => fst p = transmitter \/ fst p = receiver) (positionPartialList_ self) ->
  exists result, calculatePartial self states times fixedLinkEnd = Returns result.
Proof.
  intros Hfixed Hs Ht Hkeys. unfold calculatePartial.
  destruct (positionPartialLoop_returns _ Hfixed Hs Ht Hkeys None []) as [r ->]. cbn.
  assert (exists scaling,
             OneWayRangeScaling.getLightTimePartialScalingFactor
               (oneWayRangeScaler_ self) fixedLinkEnd = Returns scaling)
    as [scaling Hk] by (destruct Hfixed as [-> | ->]; cbn; eauto).
  rewrite (lightTimeCorrectionLoop_returns scaling Hk). eauto.
Qed.

End PartialProperties.

(** ** [OneWayRangeObservationModel] *)

Section ObservationModelProperties.
Context {K : PhysicalConstants} {L : LexicalCast}.
Import OneWayRangeObservationModel Specification.
Variable self : object.

(** One run of [computeIdealObservationsWithLinkEndData] at a valid anchor,
    the calculator having returned. *)
Lemma withLinkEndData_returns (time : float) (isTimeAtReception : bool)
    (times0 : list float) (states0 : list Vector6d)
    (lightTime : float) (rx tx : Vector6d) :
  calculateLightTimeWithLinkEndsStates (lightTimeCalculator_ self)
    (receiverState self) (transmitterState self) time isTimeAtReception
  = Returns (lightTime, rx, tx) ->
  computeIdealObservationsWithLinkEndData self time (anchorOf isTimeAtReception)
    times0 states0
  = Returns {|
      observable := (lightTime * getSpeedOfLight)%float;
      linkEndTimes :=
        times0 ++ (if isTimeAtReception
                   then [(time - lightTime)%float; time]
                   else [time; (time + lightTime)%float]);
      linkEndStates := states0 ++ [tx; rx];
      model := {| lightTimeCalculator_ := lightTimeCalculator_ self;
                  receiverState := rx; transmitterState := tx |}
    |}.
Proof.
  intros Hcalc. unfold computeIdealObservationsWithLinkEndData.
  destruct isTimeAtReception; cbn [anchorOf]; rewrite Hcalc; cbn;
    now rewrite <- !app_assoc.
Qed.

(** A return of [computeIdealObservationsWithLinkEndData] comes from a valid
    anchor and a return of the calculator. *)
Lemma withLinkEndData_inv (time : float) (anchor : LinkEndType)
    (times0 : list float) (states0 : list Vector6d) (data : linkEndData) :
  computeIdealObservationsWithLinkEndData self time anchor times0 states0 = Returns data ->
  exists isTimeAtReception lightTime rx tx,
    anchor = anchorOf isTimeAtReception
    /\ calculateLightTimeWithLinkEndsStates (lightTimeCalculator_ self)
         (receiverState self) (transmitterState self) time isTimeAtReception
       = Returns (lightTime, rx, tx).
Proof.
  unfold computeIdealObservationsWithLinkEndData. intros H.
  apply bind_Returns_inv in H as (a & H & _).
  destruct anchor; [| discriminate H |];
    apply bind_Returns_inv in H as ([[lightTime rx] tx] & H & _).
  - now exists false, lightTime, rx, tx.
  - now exists true, lightTime, rx, tx.
Qed.

(** One run of [computeIdealObservations] at a valid anchor, the calculator
    having returned. *)
Lemma computeIdealObservations_returns (time : float) (isTimeAtReception : bool)
    (lightTime : float) :
  calculateLightTime (lightTimeCalculator_ self) time isTimeAtReception
  = Returns lightTime ->
  computeIdealObservations self time (anchorOf isTimeAtReception)
  = Returns (lightTime * getSpeedOfLight)%float.
Proof.
  intros Hcalc. unfold computeIdealObservations.
  destruct isTimeAtReception; cbn; now rewrite Hcalc.
Qed.

(** C4: with the receiver as anchor the returned reception time is the
    input time and the transmission time is the input time minus the
    computed light time; with the transmitter as anchor the transmission
    time is the input time and the reception time is the input time plus
    the computed light time. *)
Theorem withLinkEndData_times (time : float) (times0 : list float)
    (states0 : list Vector6d) (lightTime : float) (rx tx : Vector6d) :
  (calculateLightTimeWithLinkEndsStates (lightTimeCalculator_ self)
     (receiverState self) (transmitterState self) time true
   = Returns (lightTime, rx, tx) ->
   exists data,
     computeIdealObservationsWithLinkEndData self time receiver times0 states0
     = Returns data
     /\ linkEndTimes data = times0 ++ [(time - lightTime)%float; time])
  /\ (calculateLightTimeWithLinkEndsStates (lightTimeCalculator_ self)
        (receiverState self) (transmitterState self) time false
      = Returns (lightTime, rx, tx) ->
      exists data,
        computeIdealObservationsWithLinkEndData self time transmitter times0 states0
        = Returns data
        /\ linkEndTimes data = times0 ++ [time; (time + lightTime)%float]).
Proof.
  split; intros Hcalc; eexists; split.
  - exact (withLinkEndData_returns time true times0 states0 _ _ _ Hcalc).
  - reflexivity.
  - exact (withLinkEndData_returns time false times0 states0 _ _ _ Hcalc).
  - reflexivity.
Qed.

(** C5: at a valid anchor the observable of either function is the light
    time the calculator computed times the speed of light. *)
Theorem observable_is_lightTime_times_c (time : float) (isTimeAtReception : bool)
    (times0 : list float) (states0 : list Vector6d) :
  (forall lightTime,
     calculateLightTime (lightTimeCalculator_ self) time isTimeAtReception
     = Returns lightTime ->
     computeIdealObservations self time (anchorOf isTimeAtReception)
     = Returns (lightTime * getSpeedOfLight)%float)
  /\ (forall lightTime rx tx,
        calculateLightTimeWithLinkEndsStates (lightTimeCalculator_ self)
          (receiverState self) (transmitterState self) time isTimeAtReception
        = Returns (lightTime, rx, tx) ->
        exists data,
          computeIdealObservationsWithLinkEndData self time (anchorOf isTimeAtReception)
            times0 states0
          = Returns data
          /\ observable data = (lightTime * getSpeedOfLight)%float).
Proof.
  split.
  - intros lightTime. apply computeIdealObservations_returns.
  - intros lightTime rx tx Hcalc. eexists. split.
    + exact (withLinkEndData_returns time _ times0 states0 _ _ _ Hcalc).
    + reflexivity.
Qed.

(** [computeIdealObservations] returns only at a valid anchor, with the
    light time of [calculateLightTime]. *)
Lemma computeIdealObservations_inv (time : float) (anchor : LinkEndType) (value : float) :
  computeIdealObservations self time anchor = Returns value ->
  exists isTimeAtReception lightTime,
    anchor = anchorOf isTimeAtReception
    /\ calculateLightTime (lightTimeCalculator_ self) time isTimeAtReception
       = Returns lightTime
    /\ value = (lightTime * getSpeedOfLight)%float.
Proof.
  unfold computeIdealObservations. intros H.
  apply bind_Returns_inv in H as (flag & Hflag & H).
  apply bind_Returns_inv in H as (lightTime & Hcalc & [= <-]).
  destruct anchor; [| discriminate Hflag |]; injection Hflag as <-.
  - now exists false, lightTime.
  - now exists true, lightTime.
Qed.

(** C6: when the two functions of the calculator agree, then at every time
    and every anchor [computeIdealObservations] returns a value exactly when
    [computeIdealObservationsWithLinkEndData] returns that value as its
    observable. *)
Theorem same_observable (time : float) (anchor : LinkEndType)
    (times0 : list float) (states0 : list Vector6d) (value : float) :
  calculatorAgrees (lightTimeCalculator_ self) ->
  computeIdealObservations self time anchor = Returns value
  <-> exists data,
        computeIdealObservationsWithLinkEndData self time anchor times0 states0
        = Returns data
        /\ observable data = value.
Proof.
  intros Hagree. split.
  - intros H.
    apply computeIdealObservations_inv in H as (flag & lightTime & -> & Hcalc & ->).
    apply (Hagree (receiverState self) (transmitterState self)) in Hcalc
      as (rx & tx & Hcalc).
    eexists. split.
    + exact (withLinkEndData_returns time _ times0 states0 _ _ _ Hcalc).
    + reflexivity.
  - intros (data & H & <-).
    destruct (withLinkEndData_inv _ _ _ _ _ H) as (flag & lightTime & rx & tx & -> & Hcalc).
    rewrite (withLinkEndData_returns time _ times0 states0 _ _ _ Hcalc) in H.
    injection H as <-. cbn [observable].
    apply computeIdealObservations_returns,
      (Hagree (receiverState self) (transmitterState self)). eauto.
Qed.

(** C7: after a successful call the two times and the two states are
    appended in signal-flow order: the transmission time, then the reception
    time; the state of the transmitter, then the state of the receiver (the
    ones the calculator wrote).  On vectors that were empty they sit at
    indices 0 and 1. *)
Theorem withLinkEndData_signal_flow_order (time : float) (anchor : LinkEndType)
    (times0 : list float) (states0 : list Vector6d) (data : linkEndData) :
  computeIdealObservationsWithLinkEndData self time anchor times0 states0 = Returns data ->
  exists isTimeAtReception lightTime rx tx,
    anchor = anchorOf isTimeAtReception
    /\ calculateLightTimeWithLinkEndsStates (lightTimeCalculator_ self)
         (receiverState self) (transmitterState self) time isTimeAtReception
       = Returns (lightTime, rx, tx)
    /\ let transmissionTime := if isTimeAtReception then (time - lightTime)%float else time in
       let receptionTime := if isTimeAtReception then time else (time + lightTime)%float in
       linkEndTimes data = times0 ++ [transmissionTime; receptionTime]
       /\ linkEndStates data = states0 ++ [tx; rx]
       /\ (times0 = [] -> states0 = [] ->
           nth_error (linkEndTimes data) 0 = Some transmissionTime
           /\ nth_error (linkEndTimes data) 1 = Some receptionTime
           /\ nth_error (linkEndStates data) 0 = Some tx
           /\ nth_error (linkEndStates data) 1 = Some rx).
Proof.
  intros H.
  destruct (withLinkEndData_inv _ _ _ _ _ H) as (flag & lightTime & rx & tx & -> & Hcalc).
  rewrite (withLinkEndData_returns time _ times0 states0 _ _ _ Hcalc) in H.
  injection H as <-.
  exists flag, lightTime, rx, tx. cbn [linkEndTimes linkEndStates].
  split; [reflexivity|]. split; [assumption|]. cbn zeta.
  split; [now destruct flag|]. split; [reflexivity|].
  intros -> ->. now destruct flag.
Qed.

(** C8: with an anchor that is neither transmitter nor receiver both
    functions throw and return no observable. *)
Theorem invalid_anchor_throws (time : float) (anchor : LinkEndType)
    (times0 : list float) (states0 : list Vector6d) :
  anchor <> transmitter -> anchor <> receiver ->
  computeIdealObservations self time anchor
  = Throws (runtime_error
      "Error when calculating one way range observation, link end is not transmitter or receiver")
  /\ computeIdealObservationsWithLinkEndData self time anchor times0 states0
     = Throws (runtime_error
         ("Error, cannot have link end type: " ++ lexical_cast anchor ++ "for one-way range")).
Proof.
  intros Ht Hr. destruct anchor; try contradiction. now split.
Qed.

End ObservationModelProperties.

(** ** The theorems at work on the sample link *)

Section SampleRuns.
Import Sample Specification.
#[local] Existing Instance sum3_sequential.
#[local] Existing Instance constants.
#[local] Existing Instance numbering.

Example sample_partials :
  partials
  = [ ([0x1.33335b7e4736dp-1; 0x1.9999cf53099e7p-1; 0]%float, 8.5%float);
      ([-0x1.33335b7e4736dp+0; -0x1.9999cf53099e7p+0; -0]%float, 10%float);
      ([-0x1.1de7aa2004eb2p+26; -0x1.1de7aa2004eb2p+27; -0x1.1de7aa2004eb2p+30]%float,
       8.5%float) ].
Proof. reflexivity. Qed.

Example sample_update :
  OneWayRangeScaling.update blank [transmitterState; receiverState] [8.5; 10]%float
    transmitter
  = Returns scaler.
Proof. vm_compute. reflexivity. Qed.

Example sample_update_short :
  OneWayRangeScaling.update blank [transmitterState] [8.5]%float transmitter
  = UndefinedBehaviour.
Proof. reflexivity. Qed.

(** Two link ends at rest, one light-second apart along x: both factors are
    the unit line-of-sight vector and both light-time scalings are 1. *)
Example sample_update_at_rest :
  OneWayRangeScaling.update blank
    [vec6 0 0 0 0 0 0; vec6 299792458 0 0 0 0 0]%float [0; 1]%float receiver
  = Returns
      {| OneWayRangeScaling.transmitterReferenceScalingFactor_ := row3 1 0 0;
         OneWayRangeScaling.receiverReferenceScalingFactor_ := row3 1 0 0;
         OneWayRangeScaling.transmitterReferenceLightTimeCorrectionScaling_ := 1;
         OneWayRangeScaling.receiverReferenceLightTimeCorrectionScaling_ := 1 |}%float.
Proof. vm_compute. reflexivity. Qed.

(** A reference link end that is neither transmitter nor receiver. *)
Example sample_getScalingFactor_throws :
  OneWayRangeScaling.getScalingFactor scaler transmitter (retransmitter 0)
  = Throws (runtime_error
      "Error when getting one-way range scaling , link end type: 1 not compatible.").
Proof. reflexivity. Qed.

Lemma sample_calculator_agrees : OneWayRangeObservationModel.calculatorAgrees calculator.
Proof.
  intros rx tx time flag lightTime. cbn. split.
  - intros [= <-]. now exists receiverState, transmitterState.
  - intros (rx' & tx' & [= <- _ _]). reflexivity.
Defined.

Lemma calculatePartial_correction_entries_witness :
  (receiver = transmitter \/ receiver = receiver)
  /\ OneWayRangePartial.calculatePartial partial [transmitterState; receiverState]
       [8.5; 10]%float receiver
     = Returns partials
  /\ exists (positionEntries : list OneWayRangePartial.entry) (scaling : float),
       OneWayRangeScaling.getLightTimePartialScalingFactor
         (OneWayRangePartial.oneWayRangeScaler_ partial) receiver
       = Returns scaling
       /\ List.length positionEntries
          = List.length (OneWayRangePartial.positionPartialList_ partial)
       /\ partials
          = positionEntries
            ++ map (scaledCorrectionPartial [transmitterState; receiverState]
                      [8.5; 10]%float (-1 * SPEED_OF_LIGHT * scaling)%float)
                (OneWayRangePartial.lighTimeCorrectionPartialsFunctions_ partial).
Proof.
  split; [right; reflexivity|].
  split; [vm_compute; reflexivity|].
  apply (calculatePartial_correction_entries partial [transmitterState; receiverState]
           [8.5; 10]%float receiver partials).
  - right; reflexivity.
  - vm_compute; reflexivity.
Defined.

Lemma getScalingFactor_antisymmetric_witness :
  (receiver = transmitter \/ receiver = receiver)
  /\ exists factor,
       OneWayRangeScaling.getScalingFactor scaler transmitter receiver = Returns factor
       /\ OneWayRangeScaling.getScalingFactor scaler receiver receiver
          = Returns (row_opp factor).
Proof.
  split; [right; reflexivity|].
  apply (getScalingFactor_antisymmetric scaler receiver). right; reflexivity.
Defined.

Lemma getScalingFactor_differentiated_unchecked_witness :
  selectedFactor scaler transmitter
  = Some (row3 0x1.33339ea62aba1p-1 0x1.999a28dd8e4d7p-1 0)%float
  /\ (retransmitter 0 <> receiver ->
      OneWayRangeScaling.getScalingFactor scaler (retransmitter 0) transmitter
      = Returns (row3 0x1.33339ea62aba1p-1 0x1.999a28dd8e4d7p-1 0)%float)
  /\ (forall n,
        OneWayRangeScaling.getScalingFactor scaler (retransmitter n) transmitter
        = Returns (row3 0x1.33339ea62aba1p-1 0x1.999a28dd8e4d7p-1 0)%float)
  /\ OneWayRangeScaling.getScalingFactor scaler receiver transmitter
     = Returns (row_opp (row3 0x1.33339ea62aba1p-1 0x1.999a28dd8e4d7p-1 0)%float).
Proof.
  split; [reflexivity|].
  apply (getScalingFactor_differentiated_unchecked scaler (retransmitter 0) transmitter).
  reflexivity.
Defined.

Lemma withLinkEndData_times_witness :
  (exists data,
     OneWayRangeObservationModel.computeIdealObservationsWithLinkEndData
       observationModel 10%float receiver [] []
     = Returns data
     /\ OneWayRangeObservationModel.linkEndTimes data = [8.5; 10]%float)
  /\ (exists data,
        OneWayRangeObservationModel.computeIdealObservationsWithLinkEndData
          observationModel 10%float transmitter [] []
        = Returns data
        /\ OneWayRangeObservationModel.linkEndTimes data = [10; 11.5]%float).
Proof.
  destruct (withLinkEndData_times observationModel 10%float [] [] 1.5%float
              receiverState transmitterState) as [Hreceiver Htransmitter].
  split.
  - apply Hreceiver. reflexivity.
  - apply Htransmitter. reflexivity.
Defined.

Lemma observable_is_lightTime_times_c_witness :
  OneWayRangeObservationModel.computeIdealObservations observationModel 10%float receiver
  = Returns 449688687%float
  /\ exists data,
       OneWayRangeObservationModel.computeIdealObservationsWithLinkEndData
         observationModel 10%float receiver [] []
       = Returns data
       /\ OneWayRangeObservationModel.observable data = 449688687%float.
Proof.
  destruct (observable_is_lightTime_times_c observationModel 10%float true [] [])
    as [Hplain Hdata].
  split.
  - apply (Hplain 1.5%float). reflexivity.
  - apply (Hdata 1.5%float receiverState transmitterState). reflexivity.
Defined.

Lemma same_observable_witness :
  OneWayRangeObservationModel.calculatorAgrees
    (OneWayRangeObservationModel.lightTimeCalculator_ observationModel)
  /\ (OneWayRangeObservationModel.computeIdealObservations observationModel 10%float
        transmitter
      = Returns 449688687%float
      <-> exists data,
            OneWayRangeObservationModel.computeIdealObservationsWithLinkEndData
              observationModel 10%float transmitter [] []
            = Returns data
            /\ OneWayRangeObservationModel.observable data = 449688687%float).
Proof.
  split; [exact sample_calculator_agrees|].
  apply (same_observable observationModel 10%float transmitter [] [] 449688687%float).
  exact sample_calculator_agrees.
Defined.

Lemma withLinkEndData_signal_flow_order_witness :
  OneWayRangeObservationModel.computeIdealObservationsWithLinkEndData
    observationModel 10%float receiver [] []
  = Returns data
  /\ nth_error (OneWayRangeObservationModel.linkEndTimes data) 0 = Some (10 - 1.5)%float
  /\ nth_error (OneWayRangeObservationModel.linkEndTimes data) 1 = Some 10%float
  /\ nth_error (OneWayRangeObservationModel.linkEndStates data) 0 = Some transmitterState
  /\ nth_error (OneWayRangeObservationModel.linkEndStates data) 1 = Some receiverState.
Proof.
  assert (OneWayRangeObservationModel.computeIdealObservationsWithLinkEndData
            observationModel 10%float receiver [] [] = Returns data) as Hrun
    by reflexivity.
  split; [exact Hrun|].
  destruct (withLinkEndData_signal_flow_order observationModel 10%float receiver [] []
              data Hrun)
    as (flag & lightTime & rx & tx & Hanchor & Hcalc & _ & _ & Hindices).
  destruct flag; [|discriminate Hanchor].
  injection Hcalc as <- <- <-.
  exact (Hindices eq_refl eq_refl).
Defined.

Lemma invalid_anchor_throws_witness :
  retransmitter 0 <> transmitter
  /\ retransmitter 0 <> receiver
  /\ OneWayRangeObservationModel.computeIdealObservations observationModel 10%float
       (retransmitter 0)
     = Throws (runtime_error
         "Error when calculating one way range observation, link end is not transmitter or receiver")
  /\ OneWayRangeObservationModel.computeIdealObservationsWithLinkEndData
       observationModel 10%float (retransmitter 0) [] []
     = Throws (runtime_error "Error, cannot have link end type: 1for one-way range").
Proof.
  split; [discriminate|]. split; [discriminate|].
  destruct (invalid_anchor_throws observationModel 10%float (retransmitter 0) [] [])
    as [Hplain Hdata]; try discriminate.
  split; [exact Hplain|]. rewrite Hdata. reflexivity.
Defined.

End SampleRuns.

(** * Further properties *)

(** ** [OneWayRangeScaling]: the light-time scalings and the inputs of [update] *)

Section ScalingFurther.
Context {R : Redux} {K : PhysicalConstants} {L : LexicalCast}.
Import OneWayRangeScaling Specification.

(** The object [update] leaves, field by field. *)
Lemma update_returns (self : object) (transmitterState receiverState : Vector6d)
    (more : list Vector6d) (times : list float) (fixedLinkEnd : LinkEndType) :
  let s := unitLineOfSight transmitterState receiverState in
  update self (transmitterState :: receiverState :: more) times fixedLinkEnd
  = Returns {|
      transmitterReferenceScalingFactor_ :=
        scalingFactor (segment_3_3 receiverState) transmitterState receiverState;
      receiverReferenceScalingFactor_ :=
        scalingFactor (segment_3_3 transmitterState) transmitterState receiverState;
      transmitterReferenceLightTimeCorrectionScaling_ :=
        transitTimeRateFactor (segment_3_3 receiverState) s;
      receiverReferenceLightTimeCorrectionScaling_ :=
        transitTimeRateFactor (segment_3_3 transmitterState) s
    |}.
Proof.
  intros s. unfold update. cbn [at_index nth_error bind].
  unfold s, scalingFactor, transitTimeRateFactor, unitLineOfSight.
  rewrite !row_div_transpose, !row_transpose_transpose.
  now rewrite (dot_comm (segment_3_3 transmitterState)),
    (dot_comm (segment_3_3 receiverState)).
Qed.

(** X1: after [update], [getLightTimePartialScalingFactor] returns
    [1 / (1 - v.s / c)] with the velocity of the transmitter for the receiver
    reference and of the receiver for the transmitter reference, and the
    scaling factor of a reference is the transposed unit line-of-sight
    vector times the light-time scaling of that reference. *)
Theorem update_lightTime_scalings (self : object) (transmitterState receiverState : Vector6d)
    (more : list Vector6d) (times : list float) (fixedLinkEnd : LinkEndType) :
  let s := unitLineOfSight transmitterState receiverState in
  exists self',
    update self (transmitterState :: receiverState :: more) times fixedLinkEnd
    = Returns self'
    /\ getLightTimePartialScalingFactor self' receiver
       = Returns (transitTimeRateFactor (segment_3_3 transmitterState) s)
    /\ getLightTimePartialScalingFactor self' transmitter
       = Returns (transitTimeRateFactor (segment_3_3 receiverState) s)
    /\ forall (reference : LinkEndType) (scaling : float),
         getLightTimePartialScalingFactor self' reference = Returns scaling ->
         getScalingFactor self' transmitter reference
         = Returns (row_mul_scalar (transpose s) scaling).
Proof.
  intros s. eexists. split; [apply update_returns|].
  split; [reflexivity|]. split; [reflexivity|].
  intros reference scaling H.
  destruct reference; try discriminate H; injection H as <-; reflexivity.
Qed.

(** X2: [update] reads two states and nothing else: with fewer than two
    states its behaviour is undefined, with two or more it returns, it never
    throws, and what it returns is the same whatever the object held before,
    whatever the times and the fixed link end are, and whatever states
    follow the first two. *)
Theorem update_reads_two_states (self : object) (linkEndStates : list Vector6d)
    (times : list float) (fixedLinkEnd : LinkEndType) :
  (List.length linkEndStates < 2 ->
   update self linkEndStates times fixedLinkEnd = UndefinedBehaviour)
  /\ (2 <= List.length linkEndStates ->
      exists self',
        update self linkEndStates times fixedLinkEnd = Returns self'
        /\ forall (other : object) (times' : list float) (fixedLinkEnd' : LinkEndType),
             update other (firstn 2 linkEndStates) times' fixedLinkEnd' = Returns self')
  /\ (forall e, update self linkEndStates times fixedLinkEnd <> Throws e).
Proof.
  destruct linkEndStates as [|s0 [|s1 more]]; cbn [List.length].
  - repeat split; [lia | discriminate].
  - repeat split; [lia | discriminate].
  - split; [lia|]. split; [|discriminate].
    intros _. eexists. split; reflexivity.
Qed.

End ScalingFurther.

(** ** [OneWayRangePartial]: all of [calculatePartial] *)

Section PartialFurther.
Context {R : Redux} {K : PhysicalConstants} {L : LexicalCast}.
Import OneWayRangePartial Specification Characterisation.
Variable self : object.
Variable states : list Vector6d.
Variable times : list float.
Variable fixedLinkEnd : LinkEndType.

(** The first loop on position partials at the transmitter and at the
    receiver. *)
Lemma positionPartialLoop_entries (factor : RowVector3d)
    (s0 s1 : Vector6d) (ss : list Vector6d) (t0 t1 : float) (ts : list float) :
  selectedFactor (oneWayRangeScaler_ self) fixedLinkEnd = Some factor ->
  states = s0 :: s1 :: ss -> times = t0 :: t1 :: ts ->
  forall iterator : list (LinkEndType * PositionPartial),
    Forall (fun p => fst p = transmitter \/ fst p = receiver) iterator ->
    forall (current : option (Vector6d * float)) (returnPartial : list entry),
      positionPartialLoop self states times fixedLinkEnd iterator current returnPartial
      = Returns (returnPartial ++ map (positionPartialEntry factor s0 s1 t0 t1) iterator).
Proof.
  intros Hsel -> ->. induction 1 as [|[first second] next Hkey _ IH];
    intros current returnPartial.
  - cbn. now rewrite app_nil_r.
  - cbn [positionPartialLoop]. cbn in Hkey.
    destruct Hkey as [-> | ->]; cbn [at_index nth_error bind];
      rewrite (getScalingFactor_selected _ _ _ _ Hsel); cbn [bind];
      rewrite IH, <- app_assoc; reflexivity.
Qed.

(** X3: with a transmitter or receiver reference, two states and two times
    at least, and every position partial keyed by transmitter or receiver,
    [calculatePartial] returns one entry per position partial, in the order
    of the map, followed by one entry per light-time correction function.
    The entry of a position partial is the selected scaling factor, negated
    for the receiver, times the partial evaluated on the state and the time
    of its own link end, and carries that time. *)
Theorem calculatePartial_entries (factor : RowVector3d) (scaling : float)
    (s0 s1 : Vector6d) (ss : list Vector6d) (t0 t1 : float) (ts : list float) :
  selectedFactor (oneWayRangeScaler_ self) fixedLinkEnd = Some factor ->
  OneWayRangeScaling.getLightTimePartialScalingFactor (oneWayRangeScaler_ self) fixedLinkEnd
  = Returns scaling ->
  states = s0 :: s1 :: ss -> times = t0 :: t1 :: ts ->
  Forall (fun p => fst p = transmitter \/ fst p = receiver) (positionPartialList_ self) ->
  calculatePartial self states times fixedLinkEnd
  = Returns (map (positionPartialEntry factor s0 s1 t0 t1) (positionPartialList_ self)
             ++ map (scaledCorrectionPartial states times
                       (-1 * SPEED_OF_LIGHT * scaling)%float)
                 (lighTimeCorrectionPartialsFunctions_ self)).
Proof.
  intros Hsel Hk Hs Ht Hkeys. unfold calculatePartial.
  rewrite (positionPartialLoop_entries factor s0 s1 ss t0 t1 ts Hsel Hs Ht _ Hkeys).
  cbn [bind app].
  now rewrite (lightTimeCorrectionLoop_returns self states times fixedLinkEnd scaling Hk).
Qed.

(** X4: with a reference link end that is neither transmitter nor receiver,
    [calculatePartial] returns the empty list when it has neither position
    partials nor correction functions, throws the error of
    [getLightTimePartialScalingFactor] when it has correction functions only,
    and throws the error of [getScalingFactor] when its first position
    partial is keyed by transmitter or receiver and two states and times are
    there. *)
Theorem calculatePartial_invalid_reference :
  fixedLinkEnd <> transmitter -> fixedLinkEnd <> receiver ->
  (positionPartialList_ self = [] ->
   (lighTimeCorrectionPartialsFunctions_ self = [] ->
    calculatePartial self states times fixedLinkEnd = Returns [])
   /\ (lighTimeCorrectionPartialsFunctions_ self <> [] ->
       calculatePartial self states times fixedLinkEnd
       = Throws (runtime_error
           ("Error when getting one-way range light-time correction scaling , link end type: "
            ++ lexical_cast fixedLinkEnd ++ " not compatible."))))
  /\ (forall first second next,
        positionPartialList_ self = (first, second) :: next ->
        first = transmitter \/ first = receiver ->
        2 <= List.length states -> 2 <= List.length times ->
        calculatePartial self states times fixedLinkEnd
        = Throws (runtime_error
            ("Error when getting one-way range scaling , link end type: "
             ++ lexical_cast fixedLinkEnd ++ " not compatible."))).
Proof.
  intros Ht Hr. unfold calculatePartial. split.
  - intros ->. cbn [positionPartialLoop bind]. split.
    + intros ->. reflexivity.
    + destruct (lighTimeCorrectionPartialsFunctions_ self) as [|f next]; [congruence|].
      intros _. destruct fixedLinkEnd; try contradiction. reflexivity.
  - intros first second next -> Hkey Hs Hts.
    destruct states as [|s0 [|s1 ss]]; cbn in Hs; try lia.
    destruct times as [|t0 [|t1 ts]]; cbn in Hts; try lia.
    destruct fixedLinkEnd; try contradiction.
    destruct Hkey as [-> | ->]; reflexivity.
Qed.

(** X5: a position partial keyed by a role other than transmitter and
    receiver gets no state of its own.  As the first entry of the map it
    makes [calculatePartial] use [currentState] and [currentTime] before
    they are assigned; after a transmitter entry it is evaluated on the
    state and the time of the transmitter, with the factor not negated. *)
Theorem calculatePartial_other_role (factor : RowVector3d) (scaling : float) (n : nat)
    (second second' : PositionPartial) :
  selectedFactor (oneWayRangeScaler_ self) fixedLinkEnd = Some factor ->
  OneWayRangeScaling.getLightTimePartialScalingFactor (oneWayRangeScaler_ self) fixedLinkEnd
  = Returns scaling ->
  (forall next,
     positionPartialList_ self = (retransmitter n, second) :: next ->
     calculatePartial self states times fixedLinkEnd = UndefinedBehaviour)
  /\ (forall s0 ss t0 ts,
        positionPartialList_ self = [(transmitter, second); (retransmitter n, second')] ->
        states = s0 :: ss -> times = t0 :: ts ->
        calculatePartial self states times fixedLinkEnd
        = Returns ([(row_mul_matrix factor (second s0 t0), t0);
                    (row_mul_matrix factor (second' s0 t0), t0)]
                   ++ map (scaledCorrectionPartial states times
                             (-1 * SPEED_OF_LIGHT * scaling)%float)
                       (lighTimeCorrectionPartialsFunctions_ self))).
Proof.
  intros Hsel Hk. unfold calculatePartial. split.
  - intros next ->. cbn [positionPartialLoop bind].
    now rewrite (getScalingFactor_selected _ _ _ _ Hsel).
  - intros s0 ss t0 ts -> -> ->.
    cbn [positionPartialLoop at_index nth_error bind].
    rewrite !(getScalingFactor_selected _ _ _ _ Hsel).
    cbn [bind negatedForReceiver app].
    now rewrite (lightTimeCorrectionLoop_returns self _ _ fixedLinkEnd scaling Hk).
Qed.

End PartialFurther.

(** ** From the observation model to the partials *)

Section Pipeline.
Context {R : Redux} {K : PhysicalConstants} {L : LexicalCast}.
Import OneWayRangeObservationModel Specification Characterisation.
Variable self : object.

(** X6: the vectors [computeIdealObservationsWithLinkEndData] fills from
    empty are an input [OneWayRangeScaling::update] accepts, with the state
    of the transmitter where [update] reads the transmitter: [update]
    returns, and its two scaling factors are those of the states the model
    now holds. *)
Theorem linkEndData_feeds_update (time : float) (anchor : LinkEndType)
    (data : linkEndData) (scaler : OneWayRangeScaling.object) (fixedLinkEnd : LinkEndType) :
  computeIdealObservationsWithLinkEndData self time anchor [] [] = Returns data ->
  exists scaler',
    OneWayRangeScaling.update scaler (linkEndStates data) (linkEndTimes data) fixedLinkEnd
    = Returns scaler'
    /\ OneWayRangeScaling.receiverReferenceScalingFactor_ scaler'
       = scalingFactor (segment_3_3 (transmitterState (model data)))
           (transmitterState (model data)) (receiverState (model data))
    /\ OneWayRangeScaling.transmitterReferenceScalingFactor_ scaler'
       = scalingFactor (segment_3_3 (receiverState (model data)))
           (transmitterState (model data)) (receiverState (model data)).
Proof.
  intros H.
  destruct (withLinkEndData_inv _ _ _ _ _ _ H) as (flag & lightTime & rx & tx & -> & Hcalc).
  rewrite (withLinkEndData_returns _ time _ [] [] _ _ _ Hcalc) in H.
  injection H as <-. cbn [linkEndStates linkEndTimes model receiverState transmitterState app].
  eexists. split; [apply (update_returns scaler tx rx [])|]. now split.
Qed.


End Pipeline.

(** ** [OneDimensionalInterpolator] *)

Section InterpolatorProperties.
Import OneDimensionalInterpolator.
Variable IndependentVariableType DependentVariableType : Type.
Variable less greater : IndependentVariableType -> IndependentVariableType -> bool.
Variable lexical_cast : IndependentVariableType -> string.
Variable self : object IndependentVariableType DependentVariableType.

Local Abbreviation checkInterpolationBoundary :=
  (checkInterpolationBoundary IndependentVariableType DependentVariableType less greater).
Local Abbreviation checkBoundaryCase :=
  (checkBoundaryCase IndependentVariableType DependentVariableType less greater lexical_cast).
Local Abbreviation boundaryMessage :=
  (boundaryMessage IndependentVariableType DependentVariableType lexical_cast).

(** Runs [checkBoundaryCase] on a request outside the range: [Hb] says the
    flag is not 0, [Hf] and [Hk] give the two limits. *)
Ltac run_outside Hb Hf Hk :=
  cbn; rewrite ?Hb; unfold OneDimensionalInterpolator.boundaryMessage;
  rewrite ?Hf, ?Hk; cbn;
  repeat match goal with
         | |- context [if ?c then _ else _] => destruct c; cbn
         | |- context [front ?v] => destruct (front v); cbn
         | |- context [back ?v] => destruct (back v); cbn
         end.

Lemma front_back_nonempty {A : Type} (v : list A) :
  v <> [] -> exists lowest highest, front v = Returns lowest /\ back v = Returns highest.
Proof.
  intros Hv. destruct v as [|a l]; [contradiction|].
  exists a. unfold front, back, at_index. cbn [nth_error List.length].
  replace (S (List.length l) - 1) with (List.length l) by lia.
  destruct (nth_error (a :: l) (List.length l)) as [h|] eqn:E.
  - now exists h.
  - apply nth_error_None in E. cbn in E. lia.
Qed.

Lemma front_Returns_nonempty {A : Type} (v : list A) (a : A) :
  front v = Returns a -> v <> [].
Proof. now destruct v. Qed.

(** What [checkInterpolationBoundary] returns, from the two comparisons. *)
Lemma checkInterpolationBoundary_returns (x : IndependentVariableType)
    (lowest highest : IndependentVariableType) :
  front (independentValues_ _ _ self) = Returns lowest ->
  back (independentValues_ _ _ self) = Returns highest ->
  checkInterpolationBoundary self x
  = Returns (if less x lowest then -1 else if greater x highest then 1 else 0)%Z.
Proof.
  intros Hf Hb. unfold OneDimensionalInterpolator.checkInterpolationBoundary.
  rewrite Hf. cbn. destruct (less x lowest); [reflexivity|].
  rewrite Hb. cbn. now destruct (greater x highest).
Qed.

Lemma checkInterpolationBoundary_inv (x : IndependentVariableType) (isAtBoundary : Z) :
  checkInterpolationBoundary self x = Returns isAtBoundary ->
  exists lowest highest,
    front (independentValues_ _ _ self) = Returns lowest
    /\ back (independentValues_ _ _ self) = Returns highest
    /\ isAtBoundary
       = (if less x lowest then -1 else if greater x highest then 1 else 0)%Z.
Proof.
  intros H.
  destruct (front (independentValues_ _ _ self)) as [lowest| |] eqn:Hf;
    try (unfold OneDimensionalInterpolator.checkInterpolationBoundary in H;
         rewrite Hf in H; discriminate H).
  destruct (front_back_nonempty _ (front_Returns_nonempty _ _ Hf))
    as (lowest' & highest & Hf' & Hb).
  rewrite (checkInterpolationBoundary_returns x lowest highest Hf Hb) in H.
  injection H as <-. now exists lowest, highest.
Qed.

Lemma checkInterpolationBoundary_never_throws (x : IndependentVariableType) (e : exn) :
  checkInterpolationBoundary self x <> Throws e.
Proof.
  unfold OneDimensionalInterpolator.checkInterpolationBoundary, front, back, at_index.
  destruct (nth_error (independentValues_ _ _ self) 0) as [lowest|]; cbn; [|discriminate].
  destruct (less x lowest); [discriminate|].
  destruct (nth_error _ _) as [highest|]; cbn; [|discriminate].
  destruct (greater x highest); discriminate.
Qed.

(** X8: [checkInterpolationBoundary] is undefined on an interpolator without
    independent values; otherwise it returns -1 when the target is less than
    the first independent value, else 1 when it is greater than the last
    one, else 0, and nothing else. *)
Theorem checkInterpolationBoundary_flag (x : IndependentVariableType) :
  (independentValues_ _ _ self = [] ->
   checkInterpolationBoundary self x = UndefinedBehaviour)
  /\ (independentValues_ _ _ self <> [] ->
      exists lowest highest,
        front (independentValues_ _ _ self) = Returns lowest
        /\ back (independentValues_ _ _ self) = Returns highest
        /\ checkInterpolationBoundary self x
           = Returns (if less x lowest then -1 else if greater x highest then 1 else 0)%Z)
  /\ (forall isAtBoundary,
        checkInterpolationBoundary self x = Returns isAtBoundary ->
        isAtBoundary = (-1)%Z \/ isAtBoundary = 0%Z \/ isAtBoundary = 1%Z).
Proof.
  split; [|split].
  - intros Hv. unfold OneDimensionalInterpolator.checkInterpolationBoundary.
    now rewrite Hv.
  - intros Hv. destruct (front_back_nonempty _ Hv) as (lowest & highest & Hf & Hb).
    exists lowest, highest. repeat split; try assumption.
    now apply checkInterpolationBoundary_returns.
  - intros b H. apply checkInterpolationBoundary_inv in H as (lo & hi & _ & _ & ->).
    destruct (less x lo); [now left|]. destruct (greater x hi); auto.
Qed.

(** X9: nothing is done to a request inside the range, whatever the
    boundary handling, and nothing is done at all under
    [extrapolate_at_boundary], not even a look at the data: the dependent
    variable is left as it was, [useValue] is false, nothing is written and
    nothing is thrown. *)
Theorem checkBoundaryCase_nothing_to_do (dependentVariable : DependentVariableType)
    (useValue : bool) (x : IndependentVariableType) :
  boundaryHandling_ _ _ self = extrapolate_at_boundary
  \/ checkInterpolationBoundary self x = Returns 0%Z ->
  checkBoundaryCase self dependentVariable useValue x
  = ([], Returns (dependentVariable, false)).
Proof.
  unfold OneDimensionalInterpolator.checkBoundaryCase.
  intros [-> | ->]; [reflexivity|].
  now destruct (boundaryHandling_ _ _ self).
Qed.


(** X11: under [use_boundary_value], with or without warning, a request
    below the range gets the first dependent value and a request above it
    the last one, with [useValue] set. *)
Theorem checkBoundaryCase_boundary_value (dependentVariable : DependentVariableType)
    (useValue : bool) (x : IndependentVariableType) (isAtBoundary : Z)
    (first last : DependentVariableType) :
  boundaryHandling_ _ _ self = use_boundary_value
  \/ boundaryHandling_ _ _ self = use_boundary_value_with_warning ->
  checkInterpolationBoundary self x = Returns isAtBoundary ->
  isAtBoundary <> 0%Z ->
  front (dependentValues_ _ _ self) = Returns first ->
  back (dependentValues_ _ _ self) = Returns last ->
  snd (checkBoundaryCase self dependentVariable useValue x)
  = Returns (if (isAtBoundary =? -1)%Z then first else last, true).
Proof.
  intros Hh Hc Hb Hfirst Hlast.
  destruct (checkInterpolationBoundary_inv _ _ Hc) as (lo & hi & Hf & Hk & Hflag).
  assert (isAtBoundary = (-1)%Z \/ isAtBoundary = 1%Z) as Hcases
    by (rewrite Hflag in *; destruct (less x lo); [now left|];
        destruct (greater x hi); [now right | contradiction]).
  unfold OneDimensionalInterpolator.checkBoundaryCase,
    OneDimensionalInterpolator.boundaryMessage.
  destruct Hh as [-> | ->], Hcases as [-> | ->];
    rewrite Hc; cbn; rewrite ?Hf, ?Hk; cbn; rewrite ?Hfirst, ?Hlast; reflexivity.
Qed.

(** X12: under [use_default_value], with or without warning, a request
    outside the range gets the default extrapolation value, with [useValue]
    set. *)
Theorem checkBoundaryCase_default_value (dependentVariable : DependentVariableType)
    (useValue : bool) (x : IndependentVariableType) (isAtBoundary : Z) :
  boundaryHandling_ _ _ self = use_default_value
  \/ boundaryHandling_ _ _ self = use_default_value_with_warning ->
  checkInterpolationBoundary self x = Returns isAtBoundary ->
  isAtBoundary <> 0%Z ->
  snd (checkBoundaryCase self dependentVariable useValue x)
  = Returns (defaultExtrapolationValue_ _ _ self, true).
Proof.
  intros Hh Hc Hb. apply Z.eqb_neq in Hb.
  destruct (checkInterpolationBoundary_inv _ _ Hc) as (lo & hi & Hf & Hk & _).
  unfold OneDimensionalInterpolator.checkBoundaryCase,
    OneDimensionalInterpolator.boundaryMessage.
  destruct Hh as [-> | ->]; rewrite Hc; cbn; rewrite Hb, ?Hf, ?Hk; reflexivity.
Qed.

(** X13: [checkBoundaryCase] writes one line to [std::cerr] when the
    boundary handling is one of the three that warn and the request is
    outside the range, and nothing in every other case. *)
Theorem checkBoundaryCase_warning (dependentVariable : DependentVariableType)
    (useValue : bool) (x : IndependentVariableType) :
  (forall isAtBoundary,
     warns (boundaryHandling_ _ _ self) = true ->
     checkInterpolationBoundary self x = Returns isAtBoundary ->
     isAtBoundary <> 0%Z ->
     List.length (fst (checkBoundaryCase self dependentVariable useValue x)) = 1)
  /\ (fst (checkBoundaryCase self dependentVariable useValue x) <> [] ->
      warns (boundaryHandling_ _ _ self) = true
      /\ exists isAtBoundary,
           checkInterpolationBoundary self x = Returns isAtBoundary
           /\ isAtBoundary <> 0%Z).
Proof.
  split.
  - intros b Hw Hc Hb.
    destruct (checkInterpolationBoundary_inv _ _ Hc) as (lo & hi & Hf & Hk & Hflag).
    apply Z.eqb_neq in Hb.
    unfold OneDimensionalInterpolator.checkBoundaryCase.
    destruct (boundaryHandling_ _ _ self); try discriminate Hw;
      rewrite Hc; run_outside Hb Hf Hk; reflexivity.
  - unfold OneDimensionalInterpolator.checkBoundaryCase.
    destruct (checkInterpolationBoundary self x) as [b| |] eqn:Hc;
      [| now destruct (boundaryHandling_ _ _ self)
       | now destruct (boundaryHandling_ _ _ self)].
    destruct (b =? 0)%Z eqn:Hb;
      [now destruct (boundaryHandling_ _ _ self); cbn; rewrite ?Hb|].
    destruct (checkInterpolationBoundary_inv _ _ Hc) as (lo & hi & Hf & Hk & Hflag).
    assert (b <> 0%Z) as Hb' by now apply Z.eqb_neq.
    destruct (boundaryHandling_ _ _ self); run_outside Hb Hf Hk;
      try (intros Hout; now contradiction Hout);
      intros _; (split; [reflexivity | now exists b]).
Qed.

(** X14: [useValue] comes out true only for a request outside the range
    under one of the four handlings that substitute a value: a request
    inside the range is always left to the interpolation. *)
Theorem checkBoundaryCase_useValue (dependentVariable value : DependentVariableType)
    (useValue : bool) (x : IndependentVariableType) :
  snd (checkBoundaryCase self dependentVariable useValue x) = Returns (value, true) ->
  (boundaryHandling_ _ _ self = use_boundary_value
   \/ boundaryHandling_ _ _ self = use_boundary_value_with_warning
   \/ boundaryHandling_ _ _ self = use_default_value
   \/ boundaryHandling_ _ _ self = use_default_value_with_warning)
  /\ exists isAtBoundary,
       checkInterpolationBoundary self x = Returns isAtBoundary
       /\ isAtBoundary <> 0%Z.
Proof.
  unfold OneDimensionalInterpolator.checkBoundaryCase.
  destruct (checkInterpolationBoundary self x) as [b| |] eqn:Hc;
    [| now destruct (boundaryHandling_ _ _ self)
     | now destruct (boundaryHandling_ _ _ self)].
  destruct (b =? 0)%Z eqn:Hb;
    [now destruct (boundaryHandling_ _ _ self); cbn; rewrite ?Hb|].
  destruct (checkInterpolationBoundary_inv _ _ Hc) as (lo & hi & Hf & Hk & Hflag).
  assert (b <> 0%Z) as Hb' by now apply Z.eqb_neq.
  destruct (boundaryHandling_ _ _ self); run_outside Hb Hf Hk;
    try discriminate; intros _; (split; [tauto | now exists b]).
Qed.

(** X15: the error "inconsistent data encountered" is never thrown, and the
    error "boundary handling method not recognized" is thrown only for a
    boundary handling that is none of the seven enumerators. *)
Theorem checkBoundaryCase_unreachable_errors (dependentVariable : DependentVariableType)
    (useValue : bool) (x : IndependentVariableType) :
  snd (checkBoundaryCase self dependentVariable useValue x)
  <> Throws (runtime_error
       "Error when checking interpolation boundary, inconsistent data encountered")
  /\ (snd (checkBoundaryCase self dependentVariable useValue x)
      = Throws (runtime_error
          "Error when checking interpolation boundary, boundary handling method not recognized")
      -> exists value, boundaryHandling_ _ _ self = other_boundary_handling value).
Proof.
  unfold OneDimensionalInterpolator.checkBoundaryCase.
  destruct (checkInterpolationBoundary self x) as [b|e|] eqn:Hc;
    [| now apply checkInterpolationBoundary_never_throws in Hc
     | split; now destruct (boundaryHandling_ _ _ self)].
  destruct (b =? 0)%Z eqn:Hb;
    [split; now destruct (boundaryHandling_ _ _ self); cbn; rewrite ?Hb|].
  destruct (checkInterpolationBoundary_inv _ _ Hc) as (lo & hi & Hf & Hk & Hflag).
  assert ((b =? -1)%Z = true \/ (b =? -1)%Z = false /\ (b =? 1)%Z = true) as Hcases
    by (rewrite Hflag in *; destruct (less x lo); [now left|];
        destruct (greater x hi); [now right | discriminate Hb]).
  split.
  - destruct (boundaryHandling_ _ _ self); cbn; rewrite ?Hb;
      unfold OneDimensionalInterpolator.boundaryMessage; rewrite ?Hf, ?Hk; cbn;
      try discriminate;
      destruct Hcases as [-> | [-> ->]]; cbn;
      unfold front, back, at_index; now destruct (nth_error _ _).
  - destruct (boundaryHandling_ _ _ self); cbn; rewrite ?Hb;
      unfold OneDimensionalInterpolator.boundaryMessage; rewrite ?Hf, ?Hk; cbn;
      try discriminate; eauto;
      destruct Hcases as [-> | [-> ->]]; cbn;
      unfold front, back, at_index; now destruct (nth_error _ _).
Qed.

End InterpolatorProperties.

(** ** [OneDimensionalInterpolator] at [double] *)

Section InterpolatorAtDouble.
Import OneDimensionalInterpolator.
Variable DependentVariableType : Type.
Variable lexical_cast : float -> string.
Variable self : object float DependentVariableType.

Lemma less_double_nan (a : float) :
  less_double nan a = false /\ greater_double nan a = false.
Proof.
  unfold less_double, greater_double. rewrite !ltb_spec.
  replace (Prim2SF nan) with S754_nan by reflexivity.
  split; [reflexivity|]. now destruct (Prim2SF a).
Qed.

(** X16: at [double], a request that is not a number is never outside the
    range: [checkInterpolationBoundary] returns 0 for it, so
    [checkBoundaryCase] neither throws, warns nor substitutes a value under
    any boundary handling, [throw_exception_at_boundary] included. *)
Theorem nan_request_is_not_outside (dependentVariable : DependentVariableType)
    (useValue : bool) :
  independentValues_ _ _ self <> [] ->
  checkInterpolationBoundary float DependentVariableType less_double greater_double
    self nan
  = Returns 0%Z
  /\ checkBoundaryCase float DependentVariableType less_double greater_double
       lexical_cast self dependentVariable useValue nan
     = ([], Returns (dependentVariable, false)).
Proof.
  intros Hv. destruct (front_back_nonempty _ Hv) as (lowest & highest & Hf & Hb).
  assert (checkInterpolationBoundary float DependentVariableType less_double
            greater_double self nan = Returns 0%Z) as Hflag.
  { unfold checkInterpolationBoundary. rewrite Hf. cbn [bind].
    destruct (less_double_nan lowest) as [-> _]. rewrite Hb. cbn [bind].
    now destruct (less_double_nan highest) as [_ ->]. }
  split; [exact Hflag|].
  unfold checkBoundaryCase. rewrite Hflag.
  now destruct (boundaryHandling_ _ _ self).
Qed.

End InterpolatorAtDouble.

(** ** [RotationalMotionExponentialMapStateDerivative::postProcessState] *)

Section PostProcessProperties.
Import RotationalMotionExponentialMapStateDerivative.
Context {R : Redux} {M : MathematicalConstants}.






(** What a write of three rows leaves: the length and every other row. *)
Lemma set_segment3_inv (v v' : VectorXd) (row : Z) (x : Vector3d) :
  set_segment3 v row x = Returns v' ->
  List.length v' = List.length v
  /\ forall k, ~ (row <= Z.of_nat k < row + 3)%Z -> nth_error v' k = nth_error v k.
Proof.
  unfold set_segment3.
  destruct (Z.ltb_spec row 0) as [|Hrow]; [discriminate|].
  destruct (skipn (Z.to_nat row) v) as [|a [|b [|c rest]]] eqn:E; try discriminate.
  intros [= <-].
  assert (v = firstn (Z.to_nat row) v ++ a :: b :: c :: rest) as Hv
    by (now rewrite <- E, firstn_skipn).
  assert (List.length (firstn (Z.to_nat row) v) = Z.to_nat row) as Hlen.
  { apply firstn_length_le.
    pose proof (length_skipn (Z.to_nat row) v) as Hskip.
    rewrite E in Hskip. cbn in Hskip. lia. }
  split.
  - rewrite Hv at 2. rewrite !length_app. reflexivity.
  - intros k Hk. rewrite Hv at 2.
    destruct (Nat.lt_ge_cases k (Z.to_nat row)) as [Hlt|Hge].
    + now rewrite !nth_error_app1 by lia.
    + rewrite !nth_error_app2 by lia. rewrite Hlen.
      assert (3 <= k - Z.to_nat row) as H3 by lia.
      destruct (k - Z.to_nat row) as [|[|[|m]]]; try lia. reflexivity.
Qed.

Lemma postProcessLoop_inv (startRow : Z) (remaining : nat) :
  forall (i : nat) (state state' : VectorXd),
    postProcessLoop remaining i state startRow = Returns state' ->
    List.length state' = List.length state
    /\ forall k,
         (forall j, i <= j < i + remaining ->
                    ~ (writtenRow startRow j <= Z.of_nat k < writtenRow startRow j + 3)%Z) ->
         nth_error state' k = nth_error state k.
Proof.
  induction remaining as [|remaining IH]; intros i state state'; cbn [postProcessLoop].
  - intros [= <-]. now split.
  - intros H. apply bind_Returns_inv in H as (v & _ & H).
    destruct (PrimFloat.leb PI (norm v)).
    + apply bind_Returns_inv in H as (state1 & Hset & H).
      apply set_segment3_inv in Hset as [Hlen Hframe].
      apply IH in H as [Hlen' Hframe']. split; [congruence|].
      intros k Hk. rewrite Hframe', Hframe.
      * reflexivity.
      * apply (Hk i). lia.
      * intros j Hj. apply Hk. lia.
    + apply IH in H as [Hlen' Hframe']. split; [assumption|].
      intros k Hk. apply Hframe'. intros j Hj. apply Hk. lia.
Qed.

(** X17: when [postProcessState] returns, the state has the length it had,
    and every row outside the three-row windows that start at
    [startRow + 6 i] (as an [unsigned int]), one per body [i], holds what it
    held. *)
Theorem postProcessState_frame (self : object) (state state' : VectorXd) (startRow : Z) :
  postProcessState self state startRow = Returns state' ->
  List.length state' = List.length state
  /\ forall k,
       (forall i, i < List.length (bodiesToPropagate_ self) ->
                  ~ (writtenRow startRow i <= Z.of_nat k < writtenRow startRow i + 3)%Z) ->
       nth_error state' k = nth_error state k.
Proof.
  intros H. apply postProcessLoop_inv in H as [Hlen Hframe].
  split; [assumption|]. intros k Hk. apply Hframe. intros j Hj. apply Hk. lia.
Qed.

Lemma postProcessLoop_below (startRow : Z) (state : VectorXd) (remaining : nat) :
  forall i : nat,
    (forall j, i <= j < i + remaining ->
               exists v, block3 state (unsigned_int (Z.of_nat j * 6)) = Returns v
                         /\ PrimFloat.leb PI (norm v) = false) ->
    postProcessLoop remaining i state startRow = Returns state.
Proof.
  induction remaining as [|remaining IH]; intros i Hbelow; [reflexivity|].
  cbn [postProcessLoop].
  destruct (Hbelow i) as (v & -> & Hv); [lia|]. cbn [bind]. rewrite Hv.
  apply IH. intros j Hj. apply Hbelow. lia.
Qed.

(** X18: a state in which the exponential map of every body has a
    magnitude that is not [>= PI] (a magnitude that is not a number
    included) comes back unchanged, whatever [startRow] is. *)
Theorem postProcessState_below_PI (self : object) (state : VectorXd) (startRow : Z) :
  (forall i, i < List.length (bodiesToPropagate_ self) ->
             exists v, block3 state (unsigned_int (Z.of_nat i * 6)) = Returns v
                       /\ PrimFloat.leb PI (norm v) = false) ->
  postProcessState self state startRow = Returns state.
Proof.
  intros Hbelow. apply postProcessLoop_below. intros j Hj. apply Hbelow. lia.
Qed.



End PostProcessProperties.

(** ** [MassRatePartial] *)

Section MassRatePartialProperties.
Import MassRatePartial.
Variable to_string : IntegratedStateType -> string.

(** X20: whatever the derived class answers, the function returned by
    [getDerivativeFunctionWrtStateOfIntegratedBody] is empty exactly when
    the size returned with it is 0, a partial with respect to the mass has
    size 1 and one with respect to a translational state has size 6; no
    other size is returned. *)
Theorem derivativeFunction_size
    (isDependent : string * string -> IntegratedStateType -> bool)
    (isNonZero : bool) (body : string) (stateReferencePoint : string * string)
    (integratedStateType : IntegratedStateType) (f : partialFunction) (size : Z) :
  getDerivativeFunctionWrtStateOfIntegratedBody to_string isDependent isNonZero body
    stateReferencePoint integratedStateType
  = Returns (f, size) ->
  (f = emptyFunction <-> size = 0%Z)
  /\ (f = wrtMassOfBody <-> size = 1%Z)
  /\ ((f = wrtTranslationalStateOfBody
       \/ f = wrtTranslationalStateOfAdditionalBody (fst stateReferencePoint))
      <-> size = 6%Z)
  /\ (size = 0 \/ size = 1 \/ size = 6)%Z.
Proof.
  unfold getDerivativeFunctionWrtStateOfIntegratedBody.
  destruct integratedStateType; try discriminate;
    repeat match goal with
           | |- context [if ?c then _ else _] => destruct c
           end;
    try discriminate; intros [= <- <-];
    repeat split; try discriminate; try tauto; try lia;
    intros [H | H]; discriminate H.
Qed.

(** X21: [getDerivativeFunctionWrtStateOfIntegratedBody] throws for a
    rotational state and for a state type that is none of the four of the
    [switch], throws for a translational or body-mass state exactly when the
    reference point names a point on the body, and never throws for a custom
    state. *)
Theorem derivativeFunction_throws
    (isDependent : string * string -> IntegratedStateType -> bool)
    (isNonZero : bool) (body : string) (stateReferencePoint : string * string)
    (integratedStateType : IntegratedStateType) :
  (exists e,
     getDerivativeFunctionWrtStateOfIntegratedBody to_string isDependent isNonZero body
       stateReferencePoint integratedStateType
     = Throws e)
  <-> match integratedStateType with
      | rotational_state | other_state_type _ => True
      | translational_state | body_mass_state => snd stateReferencePoint <> ""%string
      | custom_state => False
      end.
Proof.
  unfold getDerivativeFunctionWrtStateOfIntegratedBody.
  destruct integratedStateType.
  - destruct (String.eqb_spec (snd stateReferencePoint) "") as [Heq|Hneq]; cbn.
    + split; [|intros H; now contradiction H].
      intros [e He].
      repeat match type of He with
             | context [if ?c then _ else _] => destruct c
             end; discriminate He.
    + split; [intros _; assumption | eauto].
  - split; [trivial | eauto].
  - destruct (String.eqb_spec (snd stateReferencePoint) "") as [Heq|Hneq]; cbn.
    + split; [|intros H; now contradiction H].
      intros [e He]. destruct isNonZero; discriminate He.
    + split; [intros _; assumption | eauto].
  - split; [intros [e He]; discriminate He | contradiction].
  - split; [trivial | eauto].
Qed.

(** X22: a [FromThrustMassRatePartial] has no partial with respect to a
    translational state: the only state type it returns a function for is
    the body mass, with an empty reference point, and then exactly when
    [accelerationBasedThrustSources_] is not empty. *)
Theorem fromThrust_derivativeFunction (EngineModel : Type) (body : string)
    (sources : list (Z * list EngineModel)) (stateReferencePoint : string * string)
    (integratedStateType : IntegratedStateType) (f : partialFunction) (size : Z) :
  FromThrust_getDerivativeFunctionWrtStateOfIntegratedBody EngineModel to_string body
    sources stateReferencePoint integratedStateType
  = Returns (f, size) ->
  (f <> emptyFunction ->
   integratedStateType = body_mass_state
   /\ snd stateReferencePoint = ""%string
   /\ sources <> []
   /\ f = wrtMassOfBody /\ size = 1%Z)
  /\ (integratedStateType = body_mass_state -> sources <> [] ->
      f = wrtMassOfBody /\ size = 1%Z).
Proof.
  unfold FromThrust_getDerivativeFunctionWrtStateOfIntegratedBody,
    getDerivativeFunctionWrtStateOfIntegratedBody,
    FromThrust_isStateDerivativeDependentOnIntegratedAdditionalStateTypes,
    FromThrust_isMassRatePartialWrtMassNonZero.
  rewrite andb_false_r.
  destruct integratedStateType; try discriminate;
    destruct (String.eqb_spec (snd stateReferencePoint) "") as [Heq|Hneq]; cbn;
    try discriminate.
  - intros [= <- <-]. split; [congruence | discriminate].
  - destruct sources as [|s sources]; cbn; intros [= <- <-].
    + split; [congruence | intros _ H; now contradiction H].
    + split; [intros _; repeat split; try assumption; discriminate | now split].
  - intros [= <- <-]. split; [congruence | discriminate].
  - intros [= <- <-]. split; [congruence | discriminate].
Qed.

End MassRatePartialProperties.

(** ** The further properties at work on concrete objects *)

Section FurtherRuns.
Import Sample FurtherSample Specification Characterisation.
#[local] Existing Instance sum3_sequential.
#[local] Existing Instance constants.
#[local] Existing Instance numbering.
#[local] Existing Instance pi.

Lemma calculatePartial_entries_witness :
  let factor := OneWayRangeScaling.receiverReferenceScalingFactor_ scaler in
  let scaling := OneWayRangeScaling.receiverReferenceLightTimeCorrectionScaling_ scaler in
  selectedFactor (OneWayRangePartial.oneWayRangeScaler_ partial) receiver = Some factor
  /\ OneWayRangeScaling.getLightTimePartialScalingFactor
       (OneWayRangePartial.oneWayRangeScaler_ partial) receiver
     = Returns scaling
  /\ Forall (fun p => fst p = transmitter \/ fst p = receiver)
       (OneWayRangePartial.positionPartialList_ partial)
  /\ OneWayRangePartial.calculatePartial partial [transmitterState; receiverState]
       [8.5; 10]%float receiver
     = Returns
         (map (positionPartialEntry factor transmitterState receiverState 8.5%float 10%float)
            (OneWayRangePartial.positionPartialList_ partial)
          ++ map (scaledCorrectionPartial [transmitterState; receiverState] [8.5; 10]%float
                    (-1 * SPEED_OF_LIGHT * scaling)%float)
              (OneWayRangePartial.lighTimeCorrectionPartialsFunctions_ partial)).
Proof.
  assert (Forall (fun p : LinkEndType * OneWayRangePartial.PositionPartial =>
                    fst p = transmitter \/ fst p = receiver)
            (OneWayRangePartial.positionPartialList_ partial)) as Hkeys
    by (repeat constructor; cbn; auto).
  split; [reflexivity|]. split; [reflexivity|]. split; [exact Hkeys|].
  apply (calculatePartial_entries partial [transmitterState; receiverState]
           [8.5; 10]%float receiver _ _ transmitterState receiverState []
           8.5%float 10%float []); try reflexivity.
  exact Hkeys.
Defined.

Lemma calculatePartial_invalid_reference_witness :
  retransmitter 0 <> transmitter
  /\ retransmitter 0 <> receiver
  /\ OneWayRangePartial.calculatePartial partial [transmitterState; receiverState]
       [8.5; 10]%float (retransmitter 0)
     = Throws (runtime_error
         ("Error when getting one-way range scaling , link end type: "
          ++ lexical_cast (retransmitter 0) ++ " not compatible.")).
Proof.
  split; [discriminate|]. split; [discriminate|].
  destruct (calculatePartial_invalid_reference partial [transmitterState; receiverState]
              [8.5; 10]%float (retransmitter 0)) as [_ Hfirst]; try discriminate.
  eapply Hfirst; [reflexivity | left; reflexivity | cbn; lia | cbn; lia].
Defined.

Lemma calculatePartial_other_role_witness :
  let factor := OneWayRangeScaling.receiverReferenceScalingFactor_ scaler in
  let scaling := OneWayRangeScaling.receiverReferenceLightTimeCorrectionScaling_ scaler in
  selectedFactor (OneWayRangePartial.oneWayRangeScaler_ partialWithRetransmitter) receiver
  = Some factor
  /\ OneWayRangeScaling.getLightTimePartialScalingFactor
       (OneWayRangePartial.oneWayRangeScaler_ partialWithRetransmitter) receiver
     = Returns scaling
  /\ OneWayRangePartial.calculatePartial partialWithRetransmitter
       [transmitterState; receiverState] [8.5; 10]%float receiver
     = Returns
         ([(row_mul_matrix factor identity3, 8.5%float);
           (row_mul_matrix factor twice3, 8.5%float)]
          ++ map (scaledCorrectionPartial [transmitterState; receiverState] [8.5; 10]%float
                    (-1 * SPEED_OF_LIGHT * scaling)%float)
              (OneWayRangePartial.lighTimeCorrectionPartialsFunctions_
                 partialWithRetransmitter)).
Proof.
  split; [reflexivity|]. split; [reflexivity|].
  destruct (calculatePartial_other_role partialWithRetransmitter
              [transmitterState; receiverState] [8.5; 10]%float receiver
              (OneWayRangeScaling.receiverReferenceScalingFactor_ scaler)
              (OneWayRangeScaling.receiverReferenceLightTimeCorrectionScaling_ scaler)
              0 (fun _ _ => identity3) (fun _ _ => twice3) eq_refl eq_refl)
    as [_ Hafter].
  exact (Hafter transmitterState [receiverState] 8.5%float [10%float]
           eq_refl eq_refl eq_refl).
Defined.

Lemma linkEndData_feeds_update_witness :
  OneWayRangeObservationModel.computeIdealObservationsWithLinkEndData
    observationModel 10%float receiver [] []
  = Returns data
  /\ exists scaler',
       OneWayRangeScaling.update blank
         (OneWayRangeObservationModel.linkEndStates data)
         (OneWayRangeObservationModel.linkEndTimes data) receiver
       = Returns scaler'
       /\ OneWayRangeScaling.receiverReferenceScalingFactor_ scaler'
          = scalingFactor
              (segment_3_3 (OneWayRangeObservationModel.transmitterState
                              (OneWayRangeObservationModel.model data)))
              (OneWayRangeObservationModel.transmitterState
                 (OneWayRangeObservationModel.model data))
              (OneWayRangeObservationModel.receiverState
                 (OneWayRangeObservationModel.model data))
       /\ OneWayRangeScaling.transmitterReferenceScalingFactor_ scaler'
          = scalingFactor
              (segment_3_3 (OneWayRangeObservationModel.receiverState
                              (OneWayRangeObservationModel.model data)))
              (OneWayRangeObservationModel.transmitterState
                 (OneWayRangeObservationModel.model data))
              (OneWayRangeObservationModel.receiverState
                 (OneWayRangeObservationModel.model data)).
Proof.
  assert (OneWayRangeObservationModel.computeIdealObservationsWithLinkEndData
            observationModel 10%float receiver [] [] = Returns data) as Hrun
    by reflexivity.
  split; [exact Hrun|].
  exact (linkEndData_feeds_update observationModel 10%float receiver data blank receiver
           Hrun).
Defined.


End FurtherRuns.

Section InterpolatorRuns.
Import OneDimensionalInterpolator FurtherSample.

Local Abbreviation flag :=
  (checkInterpolationBoundary float float less_double greater_double).
Local Abbreviation boundaryCase :=
  (checkBoundaryCase float float less_double greater_double show).

Lemma checkBoundaryCase_nothing_to_do_witness :
  (boundaryHandling_ _ _ (interpolator throw_exception_at_boundary) = extrapolate_at_boundary
   \/ flag (interpolator throw_exception_at_boundary) 1%float = Returns 0%Z)
  /\ boundaryCase (interpolator throw_exception_at_boundary) 3%float true 1%float
     = ([], Returns (3%float, false)).
Proof.
  assert (flag (interpolator throw_exception_at_boundary) 1%float = Returns 0%Z) as Hflag
    by reflexivity.
  split; [right; exact Hflag|].
  apply (checkBoundaryCase_nothing_to_do float float less_double greater_double show
           (interpolator throw_exception_at_boundary) 3%float true 1%float).
  right; exact Hflag.
Defined.


Lemma checkBoundaryCase_boundary_value_witness :
  (boundaryHandling_ _ _ (interpolator use_boundary_value_with_warning) = use_boundary_value
   \/ boundaryHandling_ _ _ (interpolator use_boundary_value_with_warning)
      = use_boundary_value_with_warning)
  /\ flag (interpolator use_boundary_value_with_warning) (-1)%float = Returns (-1)%Z
  /\ (-1)%Z <> 0%Z
  /\ front (dependentValues_ _ _ (interpolator use_boundary_value_with_warning))
     = Returns 10%float
  /\ back (dependentValues_ _ _ (interpolator use_boundary_value_with_warning))
     = Returns 40%float
  /\ snd (boundaryCase (interpolator use_boundary_value_with_warning) 3%float false
            (-1)%float)
     = Returns (if (-1 =? -1)%Z then 10%float else 40%float, true).
Proof.
  assert (flag (interpolator use_boundary_value_with_warning) (-1)%float = Returns (-1)%Z)
    as Hflag by reflexivity.
  split; [right; reflexivity|]. split; [exact Hflag|]. split; [discriminate|].
  split; [reflexivity|]. split; [reflexivity|].
  apply (checkBoundaryCase_boundary_value float float less_double greater_double show
           (interpolator use_boundary_value_with_warning) 3%float false (-1)%float (-1)%Z
           10%float 40%float);
    [right; reflexivity | exact Hflag | discriminate | reflexivity | reflexivity].
Defined.

Lemma checkBoundaryCase_default_value_witness :
  (boundaryHandling_ _ _ (interpolator use_default_value) = use_default_value
   \/ boundaryHandling_ _ _ (interpolator use_default_value)
      = use_default_value_with_warning)
  /\ flag (interpolator use_default_value) 5%float = Returns 1%Z
  /\ 1%Z <> 0%Z
  /\ snd (boundaryCase (interpolator use_default_value) 3%float false 5%float)
     = Returns (defaultExtrapolationValue_ _ _ (interpolator use_default_value), true).
Proof.
  assert (flag (interpolator use_default_value) 5%float = Returns 1%Z) as Hflag
    by reflexivity.
  split; [left; reflexivity|]. split; [exact Hflag|]. split; [discriminate|].
  apply (checkBoundaryCase_default_value float float less_double greater_double show
           (interpolator use_default_value) 3%float false 5%float 1%Z);
    [left; reflexivity | exact Hflag | discriminate].
Defined.

Lemma checkBoundaryCase_useValue_witness :
  snd (boundaryCase (interpolator use_boundary_value) 3%float false (-1)%float)
  = Returns (10%float, true)
  /\ (boundaryHandling_ _ _ (interpolator use_boundary_value) = use_boundary_value
      \/ boundaryHandling_ _ _ (interpolator use_boundary_value)
         = use_boundary_value_with_warning
      \/ boundaryHandling_ _ _ (interpolator use_boundary_value) = use_default_value
      \/ boundaryHandling_ _ _ (interpolator use_boundary_value)
         = use_default_value_with_warning)
  /\ exists isAtBoundary,
       flag (interpolator use_boundary_value) (-1)%float = Returns isAtBoundary
       /\ isAtBoundary <> 0%Z.
Proof.
  assert (snd (boundaryCase (interpolator use_boundary_value) 3%float false (-1)%float)
          = Returns (10%float, true)) as Hrun by reflexivity.
  split; [exact Hrun|].
  exact (checkBoundaryCase_useValue float float less_double greater_double show
           (interpolator use_boundary_value) 3%float 10%float false (-1)%float Hrun).
Defined.

Lemma nan_request_is_not_outside_witness :
  independentValues_ _ _ (interpolator throw_exception_at_boundary) <> []
  /\ flag (interpolator throw_exception_at_boundary) nan = Returns 0%Z
  /\ boundaryCase (interpolator throw_exception_at_boundary) 3%float true nan
     = ([], Returns (3%float, false)).
Proof.
  split; [discriminate|].
  apply (nan_request_is_not_outside float show
           (interpolator throw_exception_at_boundary) 3%float true).
  discriminate.
Defined.

End InterpolatorRuns.

Section PostProcessRuns.
Import RotationalMotionExponentialMapStateDerivative FurtherSample.
#[local] Existing Instance sum3_sequential.
#[local] Existing Instance pi.

Lemma postProcessState_frame_witness :
  postProcessState oneBody (rows turnedFar ++ [7%float]) 3 = Returns processedFrom3
  /\ List.length processedFrom3 = List.length (rows turnedFar ++ [7%float])
  /\ forall k,
       (forall i, i < List.length (bodiesToPropagate_ oneBody) ->
                  ~ (writtenRow 3 i <= Z.of_nat k < writtenRow 3 i + 3)%Z) ->
       nth_error processedFrom3 k = nth_error (rows turnedFar ++ [7%float]) k.
Proof.
  assert (postProcessState oneBody (rows turnedFar ++ [7%float]) 3 = Returns processedFrom3)
    as Hrun by (vm_compute; reflexivity).
  split; [exact Hrun|].
  exact (postProcessState_frame oneBody (rows turnedFar ++ [7%float]) processedFrom3 3 Hrun).
Defined.

Lemma postProcessState_below_PI_witness :
  (forall i, i < List.length (bodiesToPropagate_ oneBody) ->
             exists v, block3 (rows turnedLittle) (unsigned_int (Z.of_nat i * 6)) = Returns v
                       /\ PrimFloat.leb PI (norm v) = false)
  /\ postProcessState oneBody (rows turnedLittle) 3 = Returns (rows turnedLittle).
Proof.
  assert (forall i, i < List.length (bodiesToPropagate_ oneBody) ->
             exists v, block3 (rows turnedLittle) (unsigned_int (Z.of_nat i * 6)) = Returns v
                       /\ PrimFloat.leb PI (norm v) = false) as Hbelow.
  { intros i Hi. cbn in Hi. assert (i = 0) as -> by lia.
    exists (vec3 1 0 0)%float. split; reflexivity. }
  split; [exact Hbelow|].
  exact (postProcessState_below_PI oneBody (rows turnedLittle) 3 Hbelow).
Defined.


Example sample_postProcessState :
  postProcessState twoBodies (stateOf [turnedFar; turnedLittle] ++ [7%float]) 0
  = Returns [-0x1.243f6a8885a3p+1; -0; -0; 0.125; 0.25; 0.5; 1; 0; 0; 0; 0; 0.25; 7]%float.
Proof. vm_compute. reflexivity. Qed.

End PostProcessRuns.

Section MassRatePartialRuns.
Import MassRatePartial.

Lemma derivativeFunction_size_witness :
  getDerivativeFunctionWrtStateOfIntegratedBody (fun _ => "9"%string) (fun _ _ => true)
    true "Vehicle" ("Vehicle", "")%string translational_state
  = Returns (wrtTranslationalStateOfBody, 6%Z)
  /\ (wrtTranslationalStateOfBody = emptyFunction <-> 6%Z = 0%Z)
  /\ (wrtTranslationalStateOfBody = wrtMassOfBody <-> 6%Z = 1%Z)
  /\ ((wrtTranslationalStateOfBody = wrtTranslationalStateOfBody
       \/ wrtTranslationalStateOfBody
          = wrtTranslationalStateOfAdditionalBody (fst ("Vehicle", "")%string))
      <-> 6%Z = 6%Z)
  /\ (6 = 0 \/ 6 = 1 \/ 6 = 6)%Z.
Proof.
  split; [reflexivity|].
  apply (derivativeFunction_size (fun _ => "9"%string) (fun _ _ => true) true "Vehicle"
           ("Vehicle", "")%string translational_state).
  reflexivity.
Defined.

Lemma fromThrust_derivativeFunction_witness :
  FromThrust_getDerivativeFunctionWrtStateOfIntegratedBody unit (fun _ => "9"%string)
    "Vehicle" [(0%Z, [tt])] ("Vehicle", "")%string body_mass_state
  = Returns (wrtMassOfBody, 1%Z)
  /\ (wrtMassOfBody <> emptyFunction ->
      body_mass_state = body_mass_state
      /\ snd ("Vehicle", "")%string = ""%string
      /\ [(0%Z, [tt])] <> []
      /\ wrtMassOfBody = wrtMassOfBody /\ 1%Z = 1%Z)
  /\ (body_mass_state = body_mass_state -> [(0%Z, [tt])] <> [] ->
      wrtMassOfBody = wrtMassOfBody /\ 1%Z = 1%Z).
Proof.
  split; [reflexivity|].
  apply (fromThrust_derivativeFunction (fun _ => "9"%string) unit "Vehicle"
           [(0%Z, [tt])] ("Vehicle", "")%string body_mass_state).
  reflexivity.
Defined.

Example sample_fromThrust_translational :
  FromThrust_getDerivativeFunctionWrtStateOfIntegratedBody unit (fun _ => "9"%string)
    "Vehicle" [(0%Z, [tt])] ("Vehicle", "")%string translational_state
  = Returns (emptyFunction, 0%Z).
Proof. reflexivity. Qed.

End MassRatePartialRuns.
